(** * Red Converter: transformation registry, pipeline engine, risk analyzer
      and detection engine

    A shallow embedding of [src/lib/transformations.ts],
    [src/lib/new-transformations.ts] and [src/lib/pipeline.ts], and the
    properties of the specification that concern them.

    JavaScript strings are sequences of UTF-16 code units, so a string is a
    [list Z] of code units; numbers that go through the 32-bit operators are
    [Z] with the wrap-around of [ToInt32]/[ToUint32] written out; a function
    that may throw returns a [Result]. *)

From Stdlib Require Import String Ascii ZArith Bool List Lia.
Import ListNotations.
Local Open Scope Z_scope.

Set Implicit Arguments.

(* ================================================================== *)
(** * Platform primitives *)
(* ================================================================== *)

Module JS.

(** A JavaScript string: its UTF-16 code units. *)
Definition jsstring := list Z.

(** [a === b] on strings. *)
Fixpoint streq (a b : jsstring) : bool :=
  match a, b with
  | [], [] => true
  | x :: a', y :: b' => (x =? y) && streq a' b'
  | _, _ => false
  end.

(** Values a function can throw.  [JsError m] is [new Error(m)]; the host's
    own exceptions are [Error] instances too, with a message the host
    chooses; [NonError] is any thrown value that is not an [Error]. *)
Inductive HostError := URIError | InvalidCharacterError.

Inductive Thrown :=
| JsError (message : jsstring)
| HostThrown (e : HostError)
| NonError.

Inductive Result (A : Type) :=
| Ok (a : A)
| Throw (e : Thrown).
Arguments Ok {A} a.
Arguments Throw {A} e.

Definition bind {A B} (r : Result A) (k : A -> Result B) : Result B :=
  match r with
  | Ok a => k a
  | Throw e => Throw e
  end.

Notation "x <- r ;; k" := (bind r (fun x => k))
  (at level 61, r at next level, right associativity).

(** ** 32-bit integer operators *)

Definition toUint32 (x : Z) : Z := x mod 2 ^ 32.
Definition toInt32 (x : Z) : Z := (x + 2 ^ 31) mod 2 ^ 32 - 2 ^ 31.
Definition toUint8 (x : Z) : Z := x mod 256.

(** [x << n], [x >> n], [x >>> n]: the shift count is taken modulo 32. *)
Definition shl (x n : Z) : Z := toInt32 (Z.shiftl (toInt32 x) (toUint32 n mod 32)).
Definition sar (x n : Z) : Z := Z.shiftr (toInt32 x) (toUint32 n mod 32).
Definition shr (x n : Z) : Z := Z.shiftr (toUint32 x) (toUint32 n mod 32).
(** [x & y], [x | y], [x ^ y], [~x]. *)
Definition band (x y : Z) : Z := toInt32 (Z.land (toInt32 x) (toInt32 y)).
Definition bor (x y : Z) : Z := toInt32 (Z.lor (toInt32 x) (toInt32 y)).
Definition bxor (x y : Z) : Z := toInt32 (Z.lxor (toInt32 x) (toInt32 y)).
Definition bnot (x : Z) : Z := toInt32 (Z.lnot (toInt32 x)).

(** ** Numbers to strings *)

Definition digitChar (d : Z) : Z := if d <? 10 then 48 + d else 97 + (d - 10).

Fixpoint digitsFuel (fuel : nat) (radix n : Z) (acc : jsstring) : jsstring :=
  match fuel with
  | O => acc
  | S f =>
      let acc' := digitChar (n mod radix) :: acc in
      if n / radix =? 0 then acc' else digitsFuel f radix (n / radix) acc'
  end.

(** [n.toString(radix)] for a non-negative integer [n] (Number or BigInt). *)
Definition toStringRadix (radix n : Z) : jsstring :=
  digitsFuel (S (Z.to_nat (Z.log2 n))) radix n [].

(** [s.padStart(len, c)] with a one-character filler. *)
Definition padStart (len : nat) (c : Z) (s : jsstring) : jsstring :=
  repeat c (len - length s) ++ s.

(** [s.toUpperCase()] on ASCII letters, per code unit. *)
Definition asciiUpper (c : Z) : Z :=
  if (97 <=? c) && (c <=? 122) then c - 32 else c.

Definition isAscii (c : Z) : bool := (0 <=? c) && (c <? 128).

(** ** Code points *)

Definition isHighSurrogate (c : Z) : bool := (0xD800 <=? c) && (c <=? 0xDBFF).
Definition isLowSurrogate (c : Z) : bool := (0xDC00 <=? c) && (c <=? 0xDFFF).

(** [String.fromCodePoint(cp)]. *)
Definition fromCodePoint (cp : Z) : jsstring :=
  if cp <? 0x10000 then [cp]
  else [0xD800 + (cp - 0x10000) / 0x400; 0xDC00 + (cp - 0x10000) mod 0x400].

(** [[...s]] and [for (const ch of s)]: the string split at code points; a
    surrogate pair stays together, a lone surrogate is an element of its
    own. *)
Fixpoint spread (s : jsstring) : list jsstring :=
  match s with
  | [] => []
  | h :: t =>
      match t with
      | l :: t' =>
          if isHighSurrogate h && isLowSurrogate l
          then [h; l] :: spread t'
          else [h] :: spread t
      | [] => [[h]]
      end
  end.

(** The code point of an element of [spread]. *)
Definition codePointOf (ch : jsstring) : Z :=
  match ch with
  | [h; l] => 0x10000 + (h - 0xD800) * 0x400 + (l - 0xDC00)
  | [c] => c
  | _ => 0
  end.

(** ** UTF-8 *)

Definition utf8EncodeCodePoint (cp : Z) : list Z :=
  if cp <? 0x80 then [cp]
  else if cp <? 0x800 then [0xC0 + cp / 64; 0x80 + cp mod 64]
  else if cp <? 0x10000 then
    [0xE0 + cp / 4096; 0x80 + (cp / 64) mod 64; 0x80 + cp mod 64]
  else
    [0xF0 + cp / 262144; 0x80 + (cp / 4096) mod 64;
     0x80 + (cp / 64) mod 64; 0x80 + cp mod 64].

Definition isLoneSurrogate (ch : jsstring) : bool :=
  match ch with
  | [c] => isHighSurrogate c || isLowSurrogate c
  | _ => false
  end.

(** [new TextEncoder().encode(s)]: a lone surrogate is encoded as U+FFFD. *)
Definition textEncode (s : jsstring) : list Z :=
  flat_map (fun ch =>
              utf8EncodeCodePoint (if isLoneSurrogate ch then 0xFFFD else codePointOf ch))
           (spread s).

(** The state of the WHATWG UTF-8 decoder. *)
Record Utf8State := {
  u_cp : Z; u_seen : Z; u_needed : Z; u_lower : Z; u_upper : Z }.

Definition utf8Init : Utf8State :=
  {| u_cp := 0; u_seen := 0; u_needed := 0; u_lower := 0x80; u_upper := 0xBF |}.

(** A byte read when no sequence is open. *)
Definition utf8Lead (b : Z) : list Z * Utf8State :=
  if b <=? 0x7F then ([b], utf8Init)
  else if (0xC2 <=? b) && (b <=? 0xDF) then
    ([], {| u_cp := Z.land b 0x1F; u_seen := 0; u_needed := 1;
            u_lower := 0x80; u_upper := 0xBF |})
  else if (0xE0 <=? b) && (b <=? 0xEF) then
    ([], {| u_cp := Z.land b 0xF; u_seen := 0; u_needed := 2;
            u_lower := if b =? 0xE0 then 0xA0 else 0x80;
            u_upper := if b =? 0xED then 0x9F else 0xBF |})
  else if (0xF0 <=? b) && (b <=? 0xF4) then
    ([], {| u_cp := Z.land b 0x7; u_seen := 0; u_needed := 3;
            u_lower := if b =? 0xF0 then 0x90 else 0x80;
            u_upper := if b =? 0xF4 then 0x8F else 0xBF |})
  else ([0xFFFD], utf8Init).

(** One byte of input: the code points emitted and the next state.  A byte
    that breaks an open sequence yields U+FFFD and is read again as a
    lead byte. *)
Definition utf8Step (st : Utf8State) (b : Z) : list Z * Utf8State :=
  if u_needed st =? 0 then utf8Lead b
  else if (b <? u_lower st) || (u_upper st <? b) then
    let (out, st') := utf8Lead b in (0xFFFD :: out, st')
  else
    let cp := Z.lor (Z.shiftl (u_cp st) 6) (Z.land b 0x3F) in
    if u_seen st + 1 =? u_needed st then ([cp], utf8Init)
    else ([], {| u_cp := cp; u_seen := u_seen st + 1; u_needed := u_needed st;
                 u_lower := 0x80; u_upper := 0xBF |}).

Fixpoint utf8Run (st : Utf8State) (bytes : list Z) : list Z :=
  match bytes with
  | [] => if u_needed st =? 0 then [] else [0xFFFD]
  | b :: rest =>
      let (out, st') := utf8Step st b in out ++ utf8Run st' rest
  end.

(** [new TextDecoder().decode(new Uint8Array(bytes))]: every number is
    reduced to a byte, a leading byte-order mark is dropped, malformed
    input decodes to U+FFFD. *)
Definition textDecode (nums : list Z) : jsstring :=
  let bytes := map toUint8 nums in
  let body :=
    match bytes with
    | 0xEF :: 0xBB :: 0xBF :: rest => rest
    | _ => bytes
    end in
  flat_map fromCodePoint (utf8Run utf8Init body).

(** A literal of the source text, written here as a Rocq string (its UTF-8
    bytes). *)
Fixpoint bytesOfString (s : string) : list Z :=
  match s with
  | EmptyString => []
  | String a s' => Z.of_nat (nat_of_ascii a) :: bytesOfString s'
  end.

Definition lit (s : string) : jsstring :=
  flat_map fromCodePoint (utf8Run utf8Init (bytesOfString s)).

(** ** Searching in strings *)

Fixpoint startsWith (s pre : jsstring) : bool :=
  match pre, s with
  | [], _ => true
  | p :: pre', c :: s' => (p =? c) && startsWith s' pre'
  | _ :: _, [] => false
  end.

Definition endsWith (s suf : jsstring) : bool := startsWith (rev s) (rev suf).

(** [s.includes(sub)]. *)
Fixpoint includes (s sub : jsstring) : bool :=
  startsWith s sub ||
  match s with
  | [] => false
  | _ :: s' => includes s' sub
  end.

Fixpoint indexOfFrom (i : Z) (s sub : jsstring) : Z :=
  if startsWith s sub then i
  else match s with
       | [] => -1
       | _ :: s' => indexOfFrom (i + 1) s' sub
       end.

(** [s.indexOf(sub)]; -1 when [sub] does not occur. *)
Definition indexOf (s sub : jsstring) : Z := indexOfFrom 0 s sub.

(** [xs.indexOf(x)] on an array of strings. *)
Fixpoint arrayIndexOfFrom (i : Z) (xs : list jsstring) (x : jsstring) : Z :=
  match xs with
  | [] => -1
  | y :: xs' => if streq y x then i else arrayIndexOfFrom (i + 1) xs' x
  end.

Definition arrayIndexOf (xs : list jsstring) (x : jsstring) : Z :=
  arrayIndexOfFrom 0 xs x.

(** [xs.includes(x)] on an array of strings. *)
Definition arrayIncludes (xs : list jsstring) (x : jsstring) : bool :=
  existsb (streq x) xs.

(** [s.slice(0, n)]. *)
Definition sliceTo (n : nat) (s : jsstring) : jsstring := firstn n s.

(** ** Hexadecimal digits *)

Definition hexVal (c : Z) : option Z :=
  if (48 <=? c) && (c <=? 57) then Some (c - 48)
  else if (65 <=? c) && (c <=? 70) then Some (c - 55)
  else if (97 <=? c) && (c <=? 102) then Some (c - 87)
  else None.

Definition hex2 (a b : Z) : option Z :=
  match hexVal a, hexVal b with
  | Some x, Some y => Some (16 * x + y)
  | _, _ => None
  end.

Definition hex4 (a b c d : Z) : option Z :=
  match hex2 a b, hex2 c d with
  | Some x, Some y => Some (256 * x + y)
  | _, _ => None
  end.

Definition hexUpperChar (d : Z) : Z := if d <? 10 then 48 + d else 55 + d.

(** The three characters [%XX] of an octet. *)
Definition percentOctet (b : Z) : jsstring :=
  [37; hexUpperChar (b / 16); hexUpperChar (b mod 16)].

Definition isAlnum (c : Z) : bool :=
  ((48 <=? c) && (c <=? 57)) || ((65 <=? c) && (c <=? 90)) ||
  ((97 <=? c) && (c <=? 122)).

Definition memZ (c : Z) (cs : list Z) : bool := existsb (Z.eqb c) cs.

(** ** [escape] and [unescape] (ECMA-262 B.2.1) *)

Definition escapeUnit (c : Z) : jsstring :=
  if isAlnum c || memZ c (lit "@*_+-./") then [c]
  else if c <? 256 then percentOctet c
  else [37; 117; hexUpperChar (c / 4096); hexUpperChar ((c / 256) mod 16);
        hexUpperChar ((c / 16) mod 16); hexUpperChar (c mod 16)].

Definition escape (s : jsstring) : jsstring := flat_map escapeUnit s.

Fixpoint unescape (s : jsstring) : jsstring :=
  match s with
  | [] => []
  | c :: t =>
      if c =? 37 then
        match t with
        | u :: a :: t2 =>
            if u =? 117 then
              (* [%uXXXX]; the letter u is no hexadecimal digit, so the
                 two-digit form cannot apply here *)
              match t2 with
              | b :: c2 :: d :: rest =>
                  match hex4 a b c2 d with
                  | Some n => n :: unescape rest
                  | None => c :: unescape t
                  end
              | _ => c :: unescape t
              end
            else
              match hex2 u a with
              | Some n => n :: unescape t2
              | None => c :: unescape t
              end
        | _ => c :: unescape t
        end
      else c :: unescape t
  end.

(** ** [encodeURIComponent] and [decodeURIComponent] (ECMA-262 19.2.6) *)

Definition uriUnreserved (c : Z) : bool := isAlnum c || memZ c (lit "-_.!~*'()").

Fixpoint encodeChars (chars : list jsstring) : Result jsstring :=
  match chars with
  | [] => Ok []
  | ch :: rest =>
      if isLoneSurrogate ch then Throw (HostThrown URIError)
      else
        r <- encodeChars rest ;;
        Ok ((match ch with
             | [c] => if uriUnreserved c then [c]
                      else flat_map percentOctet (utf8EncodeCodePoint c)
             | _ => flat_map percentOctet (utf8EncodeCodePoint (codePointOf ch))
             end) ++ r)
  end.

Definition encodeURIComponent (s : jsstring) : Result jsstring :=
  encodeChars (spread s).

(** Number of leading 1 bits of an octet. *)
Definition leadingOnes (b : Z) : nat :=
  if b <? 0x80 then 0%nat else if b <? 0xC0 then 1%nat
  else if b <? 0xE0 then 2%nat else if b <? 0xF0 then 3%nat
  else if b <? 0xF8 then 4%nat else 5%nat.

(** Reads [n] further groups [%XX]; [None] when one is malformed or
    missing. *)
Fixpoint readOctets (n : nat) (s : jsstring) : option (list Z * jsstring) :=
  match n with
  | O => Some ([], s)
  | S n' =>
      match s with
      | p :: a :: b :: rest =>
          if p =? 37 then
            match hex2 a b with
            | Some o =>
                match readOctets n' rest with
                | Some (os, rest') => Some (o :: os, rest')
                | None => None
                end
            | None => None
            end
          else None
      | _ => None
      end
  end.

(** The code point of a well-formed UTF-8 sequence. *)
Definition utf8CodePoint (octets : list Z) : option Z :=
  match utf8Run utf8Init octets with
  | [cp] => if streq (utf8EncodeCodePoint cp) octets then Some cp else None
  | _ => None
  end.

Fixpoint decodeFuel (fuel : nat) (s : jsstring) : Result jsstring :=
  match fuel with
  | O => Ok []
  | S f =>
      match s with
      | [] => Ok []
      | c :: t =>
          if c =? 37 then
            match t with
            | a :: b :: rest =>
                match hex2 a b with
                | None => Throw (HostThrown URIError)
                | Some o =>
                    match leadingOnes o with
                    | O => r <- decodeFuel f rest ;; Ok (o :: r)
                    | S O => Throw (HostThrown URIError)
                    | S n' =>
                        if (4 <? Z.of_nat (S n')) then Throw (HostThrown URIError)
                        else
                          match readOctets n' rest with
                          | None => Throw (HostThrown URIError)
                          | Some (os, rest') =>
                              match utf8CodePoint (o :: os) with
                              | None => Throw (HostThrown URIError)
                              | Some cp =>
                                  r <- decodeFuel f rest' ;;
                                  Ok (fromCodePoint cp ++ r)
                              end
                          end
                    end
                end
            | _ => Throw (HostThrown URIError)
            end
          else r <- decodeFuel f t ;; Ok (c :: r)
      end
  end.

Definition decodeURIComponent (s : jsstring) : Result jsstring :=
  decodeFuel (length s) s.

(** ** [btoa] and [atob] (WHATWG forgiving-base64) *)

Definition b64Alphabet : jsstring :=
  lit "ABCDEFGHIJKLMNOPQRSTUVWXYZabcdefghijklmnopqrstuvwxyz0123456789+/".

Definition b64Char (v : Z) : Z := nth (Z.to_nat v) b64Alphabet 0.

Fixpoint b64EncodeBytes (bs : list Z) : jsstring :=
  match bs with
  | [] => []
  | [a] => [b64Char (a / 4); b64Char (a mod 4 * 16); 61; 61]
  | [a; b] =>
      [b64Char (a / 4); b64Char (a mod 4 * 16 + b / 16); b64Char (b mod 16 * 4); 61]
  | a :: b :: c :: rest =>
      [b64Char (a / 4); b64Char (a mod 4 * 16 + b / 16);
       b64Char (b mod 16 * 4 + c / 64); b64Char (c mod 64)] ++ b64EncodeBytes rest
  end.

(** [btoa(s)]: fails when a code unit exceeds U+00FF. *)
Definition btoa (s : jsstring) : Result jsstring :=
  if forallb (fun c => c <=? 255) s then Ok (b64EncodeBytes s)
  else Throw (HostThrown InvalidCharacterError).

Definition isAsciiWhitespace (c : Z) : bool := memZ c [9; 10; 12; 13; 32].

Definition b64Value (c : Z) : option Z :=
  if (65 <=? c) && (c <=? 90) then Some (c - 65)
  else if (97 <=? c) && (c <=? 122) then Some (c - 71)
  else if (48 <=? c) && (c <=? 57) then Some (c + 4)
  else if c =? 43 then Some 62
  else if c =? 47 then Some 63
  else None.

Fixpoint b64Values (s : jsstring) : option (list Z) :=
  match s with
  | [] => Some []
  | c :: s' =>
      match b64Value c, b64Values s' with
      | Some v, Some vs => Some (v :: vs)
      | _, _ => None
      end
  end.

Fixpoint b64DecodeValues (vs : list Z) : jsstring :=
  match vs with
  | a :: b :: c :: d :: rest =>
      [a * 4 + b / 16; b mod 16 * 16 + c / 4; c mod 4 * 64 + d] ++ b64DecodeValues rest
  | [a; b; c] => [a * 4 + b / 16; b mod 16 * 16 + c / 4]
  | [a; b] => [a * 4 + b / 16]
  | _ => []
  end.

(** Removes one trailing [=], when there is one. *)
Definition dropEq (s : jsstring) : jsstring :=
  match rev s with
  | 61 :: r => rev r
  | _ => s
  end.

(** [atob(s)]: ASCII whitespace is ignored, up to two padding characters
    are dropped from data whose length is a multiple of four, and the rest
    must be in the Base64 alphabet with a length that is not 1 modulo 4. *)
Definition atob (s : jsstring) : Result jsstring :=
  let d := filter (fun c => negb (isAsciiWhitespace c)) s in
  let d := if Z.of_nat (length d) mod 4 =? 0 then dropEq (dropEq d) else d in
  if Z.of_nat (length d) mod 4 =? 1 then Throw (HostThrown InvalidCharacterError)
  else match b64Values d with
       | None => Throw (HostThrown InvalidCharacterError)
       | Some vs => Ok (b64DecodeValues vs)
       end.

(** ** Option objects *)

(** The values an option can hold.  The options the catalog builds itself
    hold a string or a small integer. *)
Inductive JsValue :=
| JsUndefined
| JsNull
| JsBoolean (b : bool)
| JsNumber (n : Z)
| JsString (s : jsstring).

(** A [Record<string, unknown>]: the own properties in insertion order. *)
Definition Options := list (jsstring * JsValue).

(** [options?.key]. *)
Fixpoint getProp (o : Options) (key : jsstring) : JsValue :=
  match o with
  | [] => JsUndefined
  | (k, v) :: o' => if streq k key then v else getProp o' key
  end.

Definition getOption (o : option Options) (key : jsstring) : JsValue :=
  match o with
  | Some o' => getProp o' key
  | None => JsUndefined
  end.

(** The truthiness [||] tests. *)
Definition truthy (v : JsValue) : bool :=
  match v with
  | JsUndefined | JsNull => false
  | JsBoolean b => b
  | JsNumber n => negb (n =? 0)
  | JsString s => negb (streq s [])
  end.

(** [xs.join(sep)]. *)
Fixpoint join (sep : jsstring) (xs : list jsstring) : jsstring :=
  match xs with
  | [] => []
  | [x] => x
  | x :: xs' => x ++ sep ++ join sep xs'
  end.

End JS.

(* ================================================================== *)
(** * Regular expressions *)
(* ================================================================== *)

(** The patterns of the source use character classes, concatenation,
    alternation and repetition only; without the [u] flag they read the
    string one code unit at a time.  [test] is decided with derivatives. *)
Module Regex.

Import JS.

Inductive regex :=
| Void
| Eps
| Cls (p : Z -> bool)
| Cat (a b : regex)
| Alt (a b : regex)
| Star (a : regex).

Fixpoint nullable (r : regex) : bool :=
  match r with
  | Void => false
  | Eps => true
  | Cls _ => false
  | Cat a b => nullable a && nullable b
  | Alt a b => nullable a || nullable b
  | Star _ => true
  end.

Definition cat (a b : regex) : regex :=
  match a, b with
  | Void, _ => Void
  | _, Void => Void
  | Eps, _ => b
  | _, Eps => a
  | _, _ => Cat a b
  end.

Definition alt (a b : regex) : regex :=
  match a, b with
  | Void, _ => b
  | _, Void => a
  | _, _ => Alt a b
  end.

Fixpoint deriv (c : Z) (r : regex) : regex :=
  match r with
  | Void => Void
  | Eps => Void
  | Cls p => if p c then Eps else Void
  | Cat a b =>
      if nullable a then alt (cat (deriv c a) b) (deriv c b)
      else cat (deriv c a) b
  | Alt a b => alt (deriv c a) (deriv c b)
  | Star a => cat (deriv c a) (Star a)
  end.

(** The whole string is in the language of [r]: a pattern [/^r$/]. *)
Fixpoint matches (r : regex) (s : jsstring) : bool :=
  match s with
  | [] => nullable r
  | c :: s' => matches (deriv c r) s'
  end.

Definition anyUnit : regex := Cls (fun _ => true).

(** Some substring is in the language of [r]: a pattern [/r/] without
    anchors. *)
Definition search (r : regex) (s : jsstring) : bool :=
  matches (Cat (Star anyUnit) (Cat r (Star anyUnit))) s.

Definition plus (r : regex) : regex := Cat r (Star r).
Definition opt (r : regex) : regex := Alt Eps r.
Definition chr (c : Z) : regex := Cls (Z.eqb c).

Fixpoint times (n : nat) (r : regex) : regex :=
  match n with
  | O => Eps
  | S n' => Cat r (times n' r)
  end.

Fixpoint seq (rs : list regex) : regex :=
  match rs with
  | [] => Eps
  | [r] => r
  | r :: rs' => Cat r (seq rs')
  end.

(** Character classes. *)
Definition range (lo hi : Z) (c : Z) : bool := (lo <=? c) && (c <=? hi).
Definition oneOf (cs : jsstring) (c : Z) : bool := memZ c cs.
Definition orC (p q : Z -> bool) (c : Z) : bool := p c || q c.

Definition digit : Z -> bool := range 48 57.
Definition upper : Z -> bool := range 65 90.
Definition lower : Z -> bool := range 97 122.
Definition alpha : Z -> bool := orC upper lower.
Definition alnum : Z -> bool := orC alpha digit.
Definition hexDigit : Z -> bool := orC digit (orC (range 97 102) (range 65 70)).
(** [\w] *)
Definition word : Z -> bool := orC alnum (Z.eqb 95).
(** [\s]: white space and line terminators. *)
Definition space (c : Z) : bool :=
  memZ c [9; 10; 11; 12; 13; 32; 0xA0; 0x1680; 0x2028; 0x2029; 0x202F; 0x205F;
          0x3000; 0xFEFF]
  || range 0x2000 0x200A c.

(** A class whose letters are upper-case ASCII, under the [i] flag: a code
    unit matches when it or its upper-case form is in the class. *)
Definition ignoreCase (p : Z -> bool) (c : Z) : bool := p c || p (asciiUpper c).

(** The language of a pattern. *)
Inductive lang : regex -> jsstring -> Prop :=
| lang_eps : lang Eps []
| lang_cls p c : p c = true -> lang (Cls p) [c]
| lang_cat a b s1 s2 : lang a s1 -> lang b s2 -> lang (Cat a b) (s1 ++ s2)
| lang_alt_l a b s : lang a s -> lang (Alt a b) s
| lang_alt_r a b s : lang b s -> lang (Alt a b) s
| lang_star_nil a : lang (Star a) []
| lang_star_app a s1 s2 : lang a s1 -> lang (Star a) s2 -> lang (Star a) (s1 ++ s2).

End Regex.

Import JS Regex.

(* ================================================================== *)
(** * The host *)
(* ================================================================== *)

(** What the JavaScript engine supplies and the model leaves open: the
    Unicode case tables beyond ASCII and the wording of the host's own
    error messages. *)
Record Host := {
  hostToUpperCase : jsstring -> jsstring;
  hostErrorMessage : HostError -> jsstring }.

(** [s.toUpperCase()]: on an ASCII string the letters a-z are raised; any
    other string is left to the host's case tables. *)
Definition toUpperCase (host : Host) (s : jsstring) : jsstring :=
  if forallb isAscii s then map asciiUpper s else hostToUpperCase host s.

(** [s[i]] in a template or a concatenation. *)
Definition strIndex (s : jsstring) (i : Z) : jsstring :=
  if i <? 0 then lit "undefined"
  else match nth_error s (Z.to_nat i) with
       | Some c => [c]
       | None => lit "undefined"
       end.

(** [xs[i]] on an array of strings. *)
Definition arrayIndex (xs : list jsstring) (i : Z) : jsstring :=
  if i <? 0 then lit "undefined"
  else nth (Z.to_nat i) xs (lit "undefined").

(* ================================================================== *)
(** * Algorithm library ([transformations.ts], [new-transformations.ts]) *)
(* ================================================================== *)

(** The functions the properties below exercise are spelled out; the emoji
    and other non-ASCII literals of [transformations.ts] are given as the
    UTF-8 text they are. *)

(** ** Base32 *)

Definition BASE32_ALPHABET : jsstring := lit "ABCDEFGHIJKLMNOPQRSTUVWXYZ234567".

(** The inner [while (bitsLeft >= 5)] of [base32Encode]. *)
Fixpoint base32Drain (fuel : nat) (result : jsstring) (buffer bitsLeft : Z)
  : jsstring * Z :=
  match fuel with
  | O => (result, bitsLeft)
  | S f =>
      if bitsLeft >=? 5 then
        let bitsLeft' := bitsLeft - 5 in
        base32Drain f
          (result ++ strIndex BASE32_ALPHABET (band (sar buffer bitsLeft') 0x1f))
          buffer bitsLeft'
      else (result, bitsLeft)
  end.

Fixpoint base32EncodeLoop (bytes : list Z) (result : jsstring) (buffer bitsLeft : Z)
  : jsstring * Z * Z :=
  match bytes with
  | [] => (result, buffer, bitsLeft)
  | byte :: rest =>
      let buffer' := bor (shl buffer 8) byte in
      let (result', bitsLeft') :=
        base32Drain (Z.to_nat (bitsLeft + 8)) result buffer' (bitsLeft + 8) in
      base32EncodeLoop rest result' buffer' bitsLeft'
  end.

(** [while (result.length % 8 !== 0) result += '=']. *)
Fixpoint base32Pad (fuel : nat) (result : jsstring) : jsstring :=
  match fuel with
  | O => result
  | S f =>
      if negb (Z.of_nat (length result) mod 8 =? 0)
      then base32Pad f (result ++ lit "=")
      else result
  end.

Definition base32Encode (input : jsstring) : jsstring :=
  let '(result, buffer, bitsLeft) := base32EncodeLoop (textEncode input) [] 0 0 in
  let result :=
    if bitsLeft >? 0
    then result ++ strIndex BASE32_ALPHABET (band (shl buffer (5 - bitsLeft)) 0x1f)
    else result in
  base32Pad 8 result.

(** [s.replace(/=+$/, '')]. *)
Fixpoint dropLeadingEq (s : jsstring) : jsstring :=
  match s with
  | 61 :: s' => dropLeadingEq s'
  | _ => s
  end.

Definition stripTrailingEq (s : jsstring) : jsstring := rev (dropLeadingEq (rev s)).

Fixpoint base32DecodeLoop (chars : list jsstring) (buffer bitsLeft : Z)
                          (bytes : list Z) : list Z :=
  match chars with
  | [] => bytes
  | char :: rest =>
      let value := indexOf BASE32_ALPHABET char in
      if value =? -1 then base32DecodeLoop rest buffer bitsLeft bytes
      else
        let buffer' := bor (shl buffer 5) value in
        let bitsLeft' := bitsLeft + 5 in
        if bitsLeft' >=? 8 then
          base32DecodeLoop rest buffer' (bitsLeft' - 8)
            (bytes ++ [band (sar buffer' (bitsLeft' - 8)) 0xff])
        else base32DecodeLoop rest buffer' bitsLeft' bytes
  end.

Definition base32Decode (host : Host) (input : jsstring) : jsstring :=
  let cleaned := toUpperCase host (stripTrailingEq input) in
  textDecode (base32DecodeLoop (spread cleaned) 0 0 []).

(** ** Base64 *)

Definition base64Encode (input : jsstring) : Result jsstring :=
  e <- encodeURIComponent input ;; btoa (unescape e).

Definition base64Decode (input : jsstring) : Result jsstring :=
  a <- atob input ;; decodeURIComponent (escape a).

(** ** Emoji skin tone *)

Definition SKIN_TONES : list jsstring :=
  [lit "🏻"; lit "🏼"; lit "🏽"; lit "🏾"; lit "🏿"].

Definition baseEmoji : jsstring := lit "👋".

Definition emojiSkinToneEncode (input : jsstring) : jsstring :=
  join [] (map (fun b =>
                  let high := (b / 32) mod 5 in
                  let low := b mod 5 in
                  baseEmoji ++ arrayIndex SKIN_TONES high ++
                  baseEmoji ++ arrayIndex SKIN_TONES low)
               (textEncode input)).

(** The [for (let i = 0; i < chars.length - 3; i++)] of
    [emojiSkinToneDecode]; a pair that is read moves [i] by four. *)
Fixpoint skinToneLoop (fuel : nat) (chars : list jsstring) (i : Z) (bytes : list Z)
  : list Z :=
  match fuel with
  | O => bytes
  | S f =>
      if i <? Z.of_nat (length chars) - 3 then
        let at_ k := nth (Z.to_nat (i + k)) chars [] in
        if streq (at_ 0) (lit "👋") && streq (at_ 2) (lit "👋") then
          let high := arrayIndexOf SKIN_TONES (at_ 1) in
          let low := arrayIndexOf SKIN_TONES (at_ 3) in
          if negb (high =? -1) && negb (low =? -1)
          then skinToneLoop f chars (i + 3 + 1) (bytes ++ [high * 32 + low])
          else skinToneLoop f chars (i + 1) bytes
        else skinToneLoop f chars (i + 1) bytes
      else bytes
  end.

Definition emojiSkinToneDecode (input : jsstring) : jsstring :=
  let chars := spread input in
  textDecode (skinToneLoop (length chars) chars 0 []).

(** ** Polybius square *)

Definition POLYBIUS_GRID : list (list jsstring) :=
  [ [lit "A"; lit "B"; lit "C"; lit "D"; lit "E"];
    [lit "F"; lit "G"; lit "H"; lit "I"; lit "K"];
    [lit "L"; lit "M"; lit "N"; lit "O"; lit "P"];
    [lit "Q"; lit "R"; lit "S"; lit "T"; lit "U"];
    [lit "V"; lit "W"; lit "X"; lit "Y"; lit "Z"] ].

Fixpoint polybiusCol (col : Z) (cells : list jsstring) (char : jsstring) : option Z :=
  match cells with
  | [] => None
  | x :: cells' => if streq x char then Some col else polybiusCol (col + 1) cells' char
  end.

Fixpoint polybiusRow (row : Z) (grid : list (list jsstring)) (char : jsstring)
  : option (Z * Z) :=
  match grid with
  | [] => None
  | cells :: grid' =>
      match polybiusCol 0 cells char with
      | Some col => Some (row, col)
      | None => polybiusRow (row + 1) grid' char
      end
  end.

Definition polybiusEncode (host : Host) (input : jsstring) : jsstring :=
  let replaced := map (fun c => if c =? 74 then 73 else c) (toUpperCase host input) in
  join (lit " ")
       (map (fun c =>
               match polybiusRow 0 POLYBIUS_GRID [c] with
               | Some (row, col) =>
                   toStringRadix 10 (row + 1) ++ toStringRadix 10 (col + 1)
               | None => [c]
               end)
            replaced).

(** [input.match(/\d{2}/g)]: the pairs of digits, read from the left
    without overlap. *)
Fixpoint digitPairs (s : jsstring) : list (Z * Z) :=
  match s with
  | a :: t =>
      match t with
      | b :: rest => if digit a && digit b then (a, b) :: digitPairs rest
                     else digitPairs t
      | [] => []
      end
  | [] => []
  end.

Definition polybiusDecode (input : jsstring) : jsstring :=
  join [] (map (fun pair : Z * Z =>
                  let row := fst pair - 48 - 1 in
                  let col := snd pair - 48 - 1 in
                  if (row >=? 0) && (row <? 5) && (col >=? 0) && (col <? 5)
                  then nth (Z.to_nat col) (nth (Z.to_nat row) POLYBIUS_GRID []) []
                  else lit "?")
               (digitPairs input)).

(** ** Hashes *)

(** [sha256Encode]: a 64-bit rolling hash over the code units (BigInt
    arithmetic), printed four times. *)
Definition sha256Encode (input : jsstring) : jsstring :=
  let hash :=
    fold_left (fun hash char =>
                 Z.land (Z.shiftl hash 5 - hash + char) 0xFFFFFFFFFFFFFFFF)
              input 0 in
  let base := padStart 16 48 (toStringRadix 16 hash) in
  sliceTo 64 (base ++ base ++ base ++ base).

Definition sha512Encode (input : jsstring) : jsstring :=
  let hash :=
    fold_left (fun hash char =>
                 Z.land (Z.shiftl hash 7 - hash + char)
                        0xFFFFFFFFFFFFFFFFFFFFFFFFFFFFFFFF)
              input 0 in
  let base := padStart 32 48 (toStringRadix 16 hash) in
  sliceTo 128 (base ++ base ++ base ++ base).

(** [md5Hash], the entry [hash] of the catalog. *)
Definition md5Hash (input : jsstring) : jsstring :=
  let hash :=
    fold_left (fun hash char =>
                 let hash := (shl hash 5 - hash) + char in
                 band hash hash)
              input 0 in
  padStart 8 48 (toStringRadix 16 (Z.abs hash)).

Module MD5.

Definition rotateLeft (x n : Z) : Z := toUint32 (bor (shl x n) (shr x (32 - n))).

(** The table [S] of the source; [S] is the successor of [nat] here. *)
Definition S_ : list Z :=
  [ 7; 12; 17; 22; 7; 12; 17; 22; 7; 12; 17; 22; 7; 12; 17; 22;
    5; 9; 14; 20; 5; 9; 14; 20; 5; 9; 14; 20; 5; 9; 14; 20;
    4; 11; 16; 23; 4; 11; 16; 23; 4; 11; 16; 23; 4; 11; 16; 23;
    6; 10; 15; 21; 6; 10; 15; 21; 6; 10; 15; 21; 6; 10; 15; 21 ].

Definition K : list Z :=
  [ 0xd76aa478; 0xe8c7b756; 0x242070db; 0xc1bdceee; 0xf57c0faf; 0x4787c62a;
    0xa8304613; 0xfd469501; 0x698098d8; 0x8b44f7af; 0xffff5bb1; 0x895cd7be;
    0x6b901122; 0xfd987193; 0xa679438e; 0x49b40821; 0xf61e2562; 0xc040b340;
    0x265e5a51; 0xe9b6c7aa; 0xd62f105d; 0x02441453; 0xd8a1e681; 0xe7d3fbc8;
    0x21e1cde6; 0xc33707d6; 0xf4d50d87; 0x455a14ed; 0xa9e3e905; 0xfcefa3f8;
    0x676f02d9; 0x8d2a4c8a; 0xfffa3942; 0x8771f681; 0x6d9d6122; 0xfde5380c;
    0xa4beea44; 0x4bdecfa9; 0xf6bb4b60; 0xbebfbc70; 0x289b7ec6; 0xeaa127fa;
    0xd4ef3085; 0x04881d05; 0xd9d4d039; 0xe6db99e5; 0x1fa27cf8; 0xc4ac5665;
    0xf4292244; 0x432aff97; 0xab9423a7; 0xfc93a039; 0x655b59c3; 0x8f0ccc92;
    0xffeff47d; 0x85845dd1; 0x6fa87e4f; 0xfe2ce6e0; 0xa3014314; 0x4e0811a1;
    0xf7537e82; 0xbd3af235; 0x2ad7d2bb; 0xeb86d391 ].

(** An array read; a missing element is [undefined], which the bitwise
    operators take as 0. *)
Definition at_ (xs : list Z) (i : Z) : Z := nth (Z.to_nat i) xs 0.

(** [while ((bytes.length % 64) !== 56) bytes.push(0)]. *)
Fixpoint padZeros (fuel : nat) (bytes : list Z) : list Z :=
  match fuel with
  | O => bytes
  | S f =>
      if negb (Z.of_nat (length bytes) mod 64 =? 56)
      then padZeros f (bytes ++ [0])
      else bytes
  end.

(** The message bytes, the 0x80 marker, the zero padding and the eight
    length bytes [(originalLength >>> (i * 8)) & 0xFF]. *)
Definition padded (input : jsstring) : list Z :=
  let bytes := map (fun c => band c 0xFF) input in
  let originalLength := Z.of_nat (length bytes) * 8 in
  let bytes := padZeros 64 (bytes ++ [0x80]) in
  bytes ++ map (fun i => band (shr originalLength (i * 8)) 0xFF) [0; 1; 2; 3; 4; 5; 6; 7].

Definition word (bytes : list Z) (chunkStart j : Z) : Z :=
  bor (bor (bor (at_ bytes (chunkStart + j * 4))
                (shl (at_ bytes (chunkStart + j * 4 + 1)) 8))
           (shl (at_ bytes (chunkStart + j * 4 + 2)) 16))
      (shl (at_ bytes (chunkStart + j * 4 + 3)) 24).

Definition indices (n : nat) : list Z := map Z.of_nat (List.seq 0 n).

(** One of the 64 rounds on the working variables [(A, B, C, D)]. *)
Definition round (M : list Z) (st : Z * Z * Z * Z) (i : Z) : Z * Z * Z * Z :=
  let '(A, B, C, D) := st in
  let (F, g) :=
    if i <? 16 then (bor (band B C) (band (bnot B) D), i)
    else if i <? 32 then (bor (band D B) (band (bnot D) C), (5 * i + 1) mod 16)
    else if i <? 48 then (bxor (bxor B C) D, (3 * i + 5) mod 16)
    else (bxor C (bor B (bnot D)), (7 * i) mod 16) in
  let F := toUint32 (F + A + at_ K i + at_ M g) in
  (D, toUint32 (B + rotateLeft F (at_ S_ i)), B, C).

Definition chunk (bytes : list Z) (h : Z * Z * Z * Z) (chunkStart : Z)
  : Z * Z * Z * Z :=
  let '(a0, b0, c0, d0) := h in
  let M := map (word bytes chunkStart) (indices 16) in
  let '(A, B, C, D) := fold_left (round M) (indices 64) (a0, b0, c0, d0) in
  (toUint32 (a0 + A), toUint32 (b0 + B), toUint32 (c0 + C), toUint32 (d0 + D)).

(** [for (chunkStart = 0; chunkStart < bytes.length; chunkStart += 64)]. *)
Fixpoint chunks (fuel : nat) (bytes : list Z) (h : Z * Z * Z * Z) (chunkStart : Z)
  : Z * Z * Z * Z :=
  match fuel with
  | O => h
  | S f =>
      if chunkStart <? Z.of_nat (length bytes)
      then chunks f bytes (chunk bytes h chunkStart) (chunkStart + 64)
      else h
  end.

Definition toHex (n : Z) : jsstring :=
  flat_map (fun i => padStart 2 48 (toStringRadix 16 (band (shr n (i * 8)) 0xFF)))
           [0; 1; 2; 3].

End MD5.

Definition md5Encode (input : jsstring) : jsstring :=
  let bytes := MD5.padded input in
  let '(a0, b0, c0, d0) :=
    MD5.chunks (length bytes) bytes
               (0x67452301, 0xefcdab89, 0x98badcfe, 0x10325476) 0 in
  MD5.toHex a0 ++ MD5.toHex b0 ++ MD5.toHex c0 ++ MD5.toHex d0.

(** ** Ciphers and text utilities *)

Definition rot13 (input : jsstring) : jsstring :=
  map (fun c =>
         if alpha c then
           let base := if c <=? 90 then 65 else 97 in
           (c - base + 13) mod 26 + base
         else c)
      input.

Definition rot47 (input : jsstring) : jsstring :=
  map (fun code =>
         if (code >=? 33) && (code <=? 126) then 33 + (code - 33 + 47) mod 94
         else code)
      input.

Definition atbashCipher (input : jsstring) : jsstring :=
  map (fun c =>
         if alpha c then
           let isUpper := c =? asciiUpper c in
           let base := if isUpper then 65 else 97 in
           let pos := c - base in
           base + (25 - pos)
         else c)
      input.

Definition reverseString (input : jsstring) : jsstring := rev input.

Definition urlEncode (input : jsstring) : Result jsstring := encodeURIComponent input.
Definition urlDecode (input : jsstring) : Result jsstring := decodeURIComponent input.

(* ================================================================== *)
(** * Randomness and the rest of the library *)
(* ================================================================== *)

(** The source of [Math.random]: the draws to come, each the numerator of a
    double in [0, 1) over 2^53, and the number of draws taken so far. *)
Record Rng := { draws : nat -> Z; taken : nat }.

(** The functions of the two algorithm files that are not spelled out
    above.  They are kept as they are named in the source, with the
    arguments the source gives them; the three that call [Math.random]
    thread the random source. *)
Record Library := {
  base58Encode : jsstring -> Result jsstring;
  base58Decode : jsstring -> Result jsstring;
  base85Encode : jsstring -> Result jsstring;
  base85Decode : jsstring -> Result jsstring;
  hexEncode : jsstring -> Result jsstring;
  hexDecode : jsstring -> Result jsstring;
  binaryDecode : jsstring -> Result jsstring;
  htmlEntityEncode : jsstring -> Result jsstring;
  htmlEntityDecode : jsstring -> Result jsstring;
  unicodeEscapeEncode : jsstring -> Result jsstring;
  unicodeEscapeDecode : jsstring -> Result jsstring;
  leetspeakDecode : jsstring -> Result jsstring;
  brailleDecode : jsstring -> Result jsstring;
  zeroWidthDecode : jsstring -> Result jsstring;
  zeroWidthReveal : jsstring -> Result jsstring;
  zeroWidthRemove : jsstring -> Result jsstring;
  emojiAlphabetEncode : jsstring -> Result jsstring;
  emojiAlphabetDecode : jsstring -> Result jsstring;
  binaryEmojiEncode : jsstring -> Result jsstring;
  binaryEmojiDecode : jsstring -> Result jsstring;
  base64EmojiEncode : jsstring -> Result jsstring;
  base64EmojiDecode : jsstring -> Result jsstring;
  emojiPaddingEncode : jsstring -> Result jsstring;
  emojiPaddingDecode : jsstring -> Result jsstring;
  emojiNoiseDecode : jsstring -> Result jsstring;
  caseEncode : jsstring -> Result jsstring;
  caseDecode : jsstring -> Result jsstring;
  whitespaceEncode : jsstring -> Result jsstring;
  whitespaceDecode : jsstring -> Result jsstring;
  punctuationEncode : jsstring -> Result jsstring;
  punctuationDecode : jsstring -> Result jsstring;
  toLowerCase : jsstring -> Result jsstring;
  morseEncode : jsstring -> Result jsstring;
  morseDecode : jsstring -> Result jsstring;
  baconEncode : jsstring -> Result jsstring;
  baconDecode : jsstring -> Result jsstring;
  frequencyAnalysis : jsstring -> Result jsstring;
  bruteForceCaesar : jsstring -> Result jsstring;
  characterStats : jsstring -> Result jsstring;
  binaryEncode : jsstring -> option Options -> Result jsstring;
  caesarCipher : jsstring -> option Options -> Result jsstring;
  caesarDecipher : jsstring -> option Options -> Result jsstring;
  rotN : jsstring -> option Options -> Result jsstring;
  rotNDecode : jsstring -> option Options -> Result jsstring;
  leetspeakEncode : jsstring -> option Options -> Result jsstring;
  brailleEncode : jsstring -> option Options -> Result jsstring;
  homoglyphEncode : jsstring -> option Options -> Result jsstring;
  vigenereEncode : jsstring -> option Options -> Result jsstring;
  vigenereDecode : jsstring -> option Options -> Result jsstring;
  xorEncode : jsstring -> option Options -> Result jsstring;
  xorDecode : jsstring -> option Options -> Result jsstring;
  aesEncodeSync : jsstring -> option Options -> Result jsstring;
  aesDecodeSync : jsstring -> option Options -> Result jsstring;
  railFenceEncode : jsstring -> option Options -> Result jsstring;
  railFenceDecode : jsstring -> option Options -> Result jsstring;
  affineEncode : jsstring -> option Options -> Result jsstring;
  affineDecode : jsstring -> option Options -> Result jsstring;
  zeroWidthEncode : JsValue -> jsstring -> option Options -> Rng -> Result jsstring * Rng;
  emojiNoiseEncode : jsstring -> option Options -> Rng -> Result jsstring * Rng;
  synonymShuffle : jsstring -> Rng -> Result jsstring * Rng }.

(* ================================================================== *)
(** * Transformation registry *)
(* ================================================================== *)

Inductive Reversibility := Reversible | Partial | Irreversible.
Inductive RiskLevel := Low | Medium | High.

(** An [encode] or [decode] member: text and the step's options in, text
    out, unless it throws. *)
Definition Codec := jsstring -> option Options -> Rng -> Result jsstring * Rng.

Module Transformation.
Record t := {
  id : jsstring;
  name : jsstring;
  category : jsstring;
  description : jsstring;
  canEncode : bool;
  canDecode : bool;
  reversibility : Reversibility;
  riskLevel : RiskLevel;
  encode : option Codec;
  decode : option Codec }.
End Transformation.

(** How a function of the library is called as a [Codec]: a function of
    one parameter ignores the options. *)
Definition fn1 (f : jsstring -> Result jsstring) : Codec :=
  fun input _ g => (f input, g).
Definition fn2 (f : jsstring -> option Options -> Result jsstring) : Codec :=
  fun input options g => (f input options, g).
Definition pure1 (f : jsstring -> jsstring) : Codec :=
  fun input _ g => (Ok (f input), g).
Definition fnR (f : jsstring -> Rng -> Result jsstring * Rng) : Codec :=
  fun input _ g => f input g.

(** [v || d]. *)
Definition orElse (v d : JsValue) : JsValue := if truthy v then v else d.

(* ================================================================== *)
(** * Pipeline data ([pipeline.ts]) *)
(* ================================================================== *)

Inductive Mode := Encode | Decode.

(** [`${step.mode}`]. *)
Definition modeName (m : Mode) : jsstring :=
  match m with
  | Encode => lit "encode"
  | Decode => lit "decode"
  end.

Module PipelineStep.
Record t := {
  id : jsstring;
  transformationId : jsstring;
  mode : Mode;
  options : option Options }.
End PipelineStep.

Module PipelineResult.
Record t := {
  stepId : jsstring;
  input : jsstring;
  output : jsstring;
  success : bool;
  error : option jsstring }.
End PipelineResult.

Inductive WarningType := WIrreversible | WDataLoss | WChainRisk.

Module PipelineWarning.
Record t := {
  type : WarningType;
  message : jsstring;
  stepIds : list jsstring }.
End PipelineWarning.

(** The value [executePipeline] returns. *)
Record Execution := {
  results : list PipelineResult.t;
  finalOutput : jsstring }.

(** ** A host and a library to run examples on

    The host leaves non-ASCII text as it is and has empty error messages;
    every function of the library returns its input. *)

Definition sampleHost : Host :=
  {| hostToUpperCase := fun s => s; hostErrorMessage := fun _ => [] |}.

Definition same1 : jsstring -> Result jsstring := fun s => Ok s.
Definition same2 : jsstring -> option Options -> Result jsstring := fun s _ => Ok s.

Definition sampleLib : Library.
Proof.
  constructor;
    first [ exact same1 | exact same2
          | exact (fun _ s _ g => (Ok s, g))
          | exact (fun s _ g => (Ok s, g))
          | exact (fun s g => (Ok s, g)) ].
Defined.

Definition sampleRng : Rng := {| draws := fun _ => 0; taken := 0 |}.

Section Engine.

Variable host : Host.
Variable lib : Library.

Import Transformation.

Definition transformations : list Transformation.t :=
  [
  {| id := lit "base64";
     name := lit "Base64";
     category := lit "Base Encoding";
     description := lit "Standard Base64 encoding/decoding";
     canEncode := true;
     canDecode := true;
     reversibility := Reversible;
     riskLevel := Low;
     encode := Some (fn1 base64Encode);
     decode := Some (fn1 base64Decode) |};
  {| id := lit "base32";
     name := lit "Base32";
     category := lit "Base Encoding";
     description := lit "RFC 4648 compliant Base32 encoding";
     canEncode := true;
     canDecode := true;
     reversibility := Reversible;
     riskLevel := Low;
     encode := Some (pure1 base32Encode);
     decode := Some (pure1 (base32Decode host)) |};
  {| id := lit "base58";
     name := lit "Base58";
     category := lit "Base Encoding";
     description := lit "Bitcoin-style Base58 encoding";
     canEncode := true;
     canDecode := true;
     reversibility := Reversible;
     riskLevel := Low;
     encode := Some (fn1 (base58Encode lib));
     decode := Some (fn1 (base58Decode lib)) |};
  {| id := lit "base85";
     name := lit "Base85 / ASCII85";
     category := lit "Base Encoding";
     description := lit "ASCII85 encoding with <~ ~> delimiters";
     canEncode := true;
     canDecode := true;
     reversibility := Reversible;
     riskLevel := Low;
     encode := Some (fn1 (base85Encode lib));
     decode := Some (fn1 (base85Decode lib)) |};
  {| id := lit "hex";
     name := lit "Hexadecimal";
     category := lit "Base Encoding";
     description := lit "Hex encoding (Base16)";
     canEncode := true;
     canDecode := true;
     reversibility := Reversible;
     riskLevel := Low;
     encode := Some (fn1 (hexEncode lib));
     decode := Some (fn1 (hexDecode lib)) |};
  {| id := lit "binary";
     name := lit "Binary (8-bit)";
     category := lit "Base Encoding";
     description := lit "8-bit binary representation";
     canEncode := true;
     canDecode := true;
     reversibility := Reversible;
     riskLevel := Low;
     encode := Some (fn2 (binaryEncode lib));
     decode := Some (fn1 (binaryDecode lib)) |};
  {| id := lit "binary7";
     name := lit "Binary (7-bit)";
     category := lit "Base Encoding";
     description := lit "7-bit binary (ASCII range)";
     canEncode := true;
     canDecode := true;
     reversibility := Reversible;
     riskLevel := Low;
     encode := Some (fun input _ g => (binaryEncode lib input (Some [(lit "bits", JsNumber 7)]), g));
     decode := Some (fn1 (binaryDecode lib)) |};
  {| id := lit "url";
     name := lit "URL Encode";
     category := lit "Web";
     description := lit "Percent-encoding for URLs";
     canEncode := true;
     canDecode := true;
     reversibility := Reversible;
     riskLevel := Low;
     encode := Some (fn1 urlEncode);
     decode := Some (fn1 urlDecode) |};
  {| id := lit "html-entity";
     name := lit "HTML Entity";
     category := lit "Web";
     description := lit "HTML numeric character references";
     canEncode := true;
     canDecode := true;
     reversibility := Reversible;
     riskLevel := Low;
     encode := Some (fn1 (htmlEntityEncode lib));
     decode := Some (fn1 (htmlEntityDecode lib)) |};
  {| id := lit "unicode-escape";
     name := lit "Unicode Escape";
     category := lit "Web";
     description := lit "JavaScript-style \uXXXX escapes";
     canEncode := true;
     canDecode := true;
     reversibility := Reversible;
     riskLevel := Low;
     encode := Some (fn1 (unicodeEscapeEncode lib));
     decode := Some (fn1 (unicodeEscapeDecode lib)) |};
  {| id := lit "rot13";
     name := lit "ROT13";
     category := lit "Cipher";
     description := lit "Caesar cipher with 13-character rotation";
     canEncode := true;
     canDecode := true;
     reversibility := Reversible;
     riskLevel := Low;
     encode := Some (pure1 rot13);
     decode := Some (pure1 rot13) |};
  {| id := lit "rot47";
     name := lit "ROT47";
     category := lit "Cipher";
     description := lit "Rotates ASCII printable characters";
     canEncode := true;
     canDecode := true;
     reversibility := Reversible;
     riskLevel := Low;
     encode := Some (pure1 rot47);
     decode := Some (pure1 rot47) |};
  {| id := lit "caesar";
     name := lit "Caesar Cipher";
     category := lit "Cipher";
     description := lit "Classic shift cipher (default shift: 3)";
     canEncode := true;
     canDecode := true;
     reversibility := Reversible;
     riskLevel := Low;
     encode := Some (fn2 (caesarCipher lib));
     decode := Some (fn2 (caesarDecipher lib)) |};
  {| id := lit "atbash";
     name := lit "Atbash Cipher";
     category := lit "Cipher";
     description := lit "Hebrew mirror cipher (A↔Z, B↔Y, etc.)";
     canEncode := true;
     canDecode := true;
     reversibility := Reversible;
     riskLevel := Low;
     encode := Some (pure1 atbashCipher);
     decode := Some (pure1 atbashCipher) |};
  {| id := lit "custom-rot";
     name := lit "Custom ROT";
     category := lit "Cipher";
     description := lit "User-defined rotation shift (default: 5)";
     canEncode := true;
     canDecode := true;
     reversibility := Reversible;
     riskLevel := Low;
     encode := Some (fn2 (rotN lib));
     decode := Some (fn2 (rotNDecode lib)) |};
  {| id := lit "leet-light";
     name := lit "Leetspeak (Light)";
     category := lit "Substitution";
     description := lit "Simple letter substitution (a→4, e→3)";
     canEncode := true;
     canDecode := true;
     reversibility := Partial;
     riskLevel := Low;
     encode := Some (fun input _ g => (leetspeakEncode lib input (Some [(lit "level", JsString (lit "light"))]), g));
     decode := Some (fn1 (leetspeakDecode lib)) |};
  {| id := lit "leet-heavy";
     name := lit "Leetspeak (Heavy)";
     category := lit "Substitution";
     description := lit "Complex letter substitution (a→/-\)";
     canEncode := true;
     canDecode := false;
     reversibility := Irreversible;
     riskLevel := Medium;
     encode := Some (fun input _ g => (leetspeakEncode lib input (Some [(lit "level", JsString (lit "heavy"))]), g));
     decode := None |};
  {| id := lit "braille";
     name := lit "Braille Unicode";
     category := lit "Steganography";
     description := lit "Encode text as Braille Unicode characters";
     canEncode := true;
     canDecode := true;
     reversibility := Reversible;
     riskLevel := Low;
     encode := Some (fn2 (brailleEncode lib));
     decode := Some (fn1 (brailleDecode lib)) |};
  {| id := lit "homoglyph";
     name := lit "Homoglyph";
     category := lit "Steganography";
     description := lit "Replace characters with similar-looking Unicode";
     canEncode := true;
     canDecode := false;
     reversibility := Irreversible;
     riskLevel := Medium;
     encode := Some (fn2 (homoglyphEncode lib));
     decode := None |};
  {| id := lit "zerowidth-encode";
     name := lit "Zero-Width Encode";
     category := lit "Steganography";
     description := lit "Hide secret message in zero-width characters";
     canEncode := true;
     canDecode := false;
     reversibility := Reversible;
     riskLevel := Low;
     encode := Some (fun input options g =>
        zeroWidthEncode lib (orElse (getOption options (lit "carrier")) (JsString (lit "hidden message: ")))
                        input None g);
     decode := None |};
  {| id := lit "zerowidth-decode";
     name := lit "Zero-Width Decode";
     category := lit "Steganography";
     description := lit "Extract hidden message from zero-width chars";
     canEncode := false;
     canDecode := true;
     reversibility := Reversible;
     riskLevel := Low;
     encode := None;
     decode := Some (fn1 (zeroWidthDecode lib)) |};
  {| id := lit "zerowidth-reveal";
     name := lit "Zero-Width Reveal";
     category := lit "Steganography";
     description := lit "Visualize hidden zero-width characters";
     canEncode := false;
     canDecode := true;
     reversibility := Reversible;
     riskLevel := Low;
     encode := None;
     decode := Some (fn1 (zeroWidthReveal lib)) |};
  {| id := lit "zerowidth-remove";
     name := lit "Zero-Width Remove";
     category := lit "Steganography";
     description := lit "Strip all zero-width characters";
     canEncode := false;
     canDecode := true;
     reversibility := Irreversible;
     riskLevel := Low;
     encode := None;
     decode := Some (fn1 (zeroWidthRemove lib)) |};
  {| id := lit "emoji-alphabet";
     name := lit "Emoji Alphabet";
     category := lit "Emoji";
     description := lit "Map letters to themed emojis (A→🍎)";
     canEncode := true;
     canDecode := true;
     reversibility := Reversible;
     riskLevel := Low;
     encode := Some (fn1 (emojiAlphabetEncode lib));
     decode := Some (fn1 (emojiAlphabetDecode lib)) |};
  {| id := lit "binary-emoji";
     name := lit "Binary Emoji";
     category := lit "Emoji";
     description := lit "Binary as circles (0→⚫, 1→⚪)";
     canEncode := true;
     canDecode := true;
     reversibility := Reversible;
     riskLevel := Low;
     encode := Some (fn1 (binaryEmojiEncode lib));
     decode := Some (fn1 (binaryEmojiDecode lib)) |};
  {| id := lit "base64-emoji";
     name := lit "Base64 → Emoji";
     category := lit "Emoji";
     description := lit "Base64 characters as face emojis";
     canEncode := true;
     canDecode := true;
     reversibility := Reversible;
     riskLevel := Low;
     encode := Some (fn1 (base64EmojiEncode lib));
     decode := Some (fn1 (base64EmojiDecode lib)) |};
  {| id := lit "emoji-padding";
     name := lit "Emoji Padding";
     category := lit "Emoji";
     description := lit "Add invisible emoji modifiers";
     canEncode := true;
     canDecode := true;
     reversibility := Reversible;
     riskLevel := Low;
     encode := Some (fn1 (emojiPaddingEncode lib));
     decode := Some (fn1 (emojiPaddingDecode lib)) |};
  {| id := lit "emoji-noise";
     name := lit "Emoji Noise";
     category := lit "Emoji";
     description := lit "Inject random face emojis as noise";
     canEncode := true;
     canDecode := true;
     reversibility := Reversible;
     riskLevel := Low;
     encode := Some (emojiNoiseEncode lib);
     decode := Some (fn1 (emojiNoiseDecode lib)) |};
  {| id := lit "emoji-skintone";
     name := lit "Emoji Skin Tone";
     category := lit "Emoji";
     description := lit "Encode data in skin tone variations";
     canEncode := true;
     canDecode := true;
     reversibility := Reversible;
     riskLevel := Low;
     encode := Some (pure1 emojiSkinToneEncode);
     decode := Some (pure1 emojiSkinToneDecode) |};
  {| id := lit "case-encode";
     name := lit "Case Encoding";
     category := lit "Obfuscation";
     description := lit "Encode in letter case (upper=1, lower=0)";
     canEncode := true;
     canDecode := true;
     reversibility := Reversible;
     riskLevel := Low;
     encode := Some (fn1 (caseEncode lib));
     decode := Some (fn1 (caseDecode lib)) |};
  {| id := lit "whitespace";
     name := lit "Whitespace";
     category := lit "Obfuscation";
     description := lit "Encode as tabs and spaces";
     canEncode := true;
     canDecode := true;
     reversibility := Reversible;
     riskLevel := Low;
     encode := Some (fn1 (whitespaceEncode lib));
     decode := Some (fn1 (whitespaceDecode lib)) |};
  {| id := lit "punctuation";
     name := lit "Punctuation";
     category := lit "Obfuscation";
     description := lit "Encode as dots and commas";
     canEncode := true;
     canDecode := true;
     reversibility := Reversible;
     riskLevel := Low;
     encode := Some (fn1 (punctuationEncode lib));
     decode := Some (fn1 (punctuationDecode lib)) |};
  {| id := lit "synonym";
     name := lit "Synonym Shuffle";
     category := lit "Obfuscation";
     description := lit "Replace words with random synonyms";
     canEncode := true;
     canDecode := false;
     reversibility := Irreversible;
     riskLevel := High;
     encode := Some (fnR (synonymShuffle lib));
     decode := None |};
  {| id := lit "reverse";
     name := lit "Reverse";
     category := lit "Text";
     description := lit "Reverse character order";
     canEncode := true;
     canDecode := true;
     reversibility := Reversible;
     riskLevel := Low;
     encode := Some (pure1 reverseString);
     decode := Some (pure1 reverseString) |};
  {| id := lit "uppercase";
     name := lit "Uppercase";
     category := lit "Text";
     description := lit "Convert to uppercase";
     canEncode := true;
     canDecode := false;
     reversibility := Partial;
     riskLevel := Low;
     encode := Some (pure1 (toUpperCase host));
     decode := None |};
  {| id := lit "lowercase";
     name := lit "Lowercase";
     category := lit "Text";
     description := lit "Convert to lowercase";
     canEncode := true;
     canDecode := false;
     reversibility := Partial;
     riskLevel := Low;
     encode := Some (fn1 (toLowerCase lib));
     decode := None |};
  {| id := lit "hash";
     name := lit "Hash (Demo)";
     category := lit "Hash";
     description := lit "One-way hash function";
     canEncode := true;
     canDecode := false;
     reversibility := Irreversible;
     riskLevel := High;
     encode := Some (pure1 md5Hash);
     decode := None |};
  {| id := lit "vigenere";
     name := lit "Vigenère Cipher";
     category := lit "Cipher";
     description := lit "Polyalphabetic cipher with keyword (default: SECRET)";
     canEncode := true;
     canDecode := true;
     reversibility := Reversible;
     riskLevel := Low;
     encode := Some (fn2 (vigenereEncode lib));
     decode := Some (fn2 (vigenereDecode lib)) |};
  {| id := lit "xor";
     name := lit "XOR Encryption";
     category := lit "Cipher";
     description := lit "Symmetric XOR cipher with key (output as hex)";
     canEncode := true;
     canDecode := true;
     reversibility := Reversible;
     riskLevel := Low;
     encode := Some (fn2 (xorEncode lib));
     decode := Some (fn2 (xorDecode lib)) |};
  {| id := lit "aes";
     name := lit "AES Encryption";
     category := lit "Cipher";
     description := lit "AES-256-GCM encryption (simplified demo)";
     canEncode := true;
     canDecode := true;
     reversibility := Reversible;
     riskLevel := Medium;
     encode := Some (fn2 (aesEncodeSync lib));
     decode := Some (fn2 (aesDecodeSync lib)) |};
  {| id := lit "morse";
     name := lit "Morse Code";
     category := lit "Cipher";
     description := lit "International Morse code encoding";
     canEncode := true;
     canDecode := true;
     reversibility := Reversible;
     riskLevel := Low;
     encode := Some (fn1 (morseEncode lib));
     decode := Some (fn1 (morseDecode lib)) |};
  {| id := lit "bacon";
     name := lit "Bacon Cipher";
     category := lit "Cipher";
     description := lit "Baconian cipher using A/B (steganographic)";
     canEncode := true;
     canDecode := true;
     reversibility := Reversible;
     riskLevel := Low;
     encode := Some (fn1 (baconEncode lib));
     decode := Some (fn1 (baconDecode lib)) |};
  {| id := lit "railfence";
     name := lit "Rail Fence Cipher";
     category := lit "Cipher";
     description := lit "Transposition cipher with 3 rails";
     canEncode := true;
     canDecode := true;
     reversibility := Reversible;
     riskLevel := Low;
     encode := Some (fn2 (railFenceEncode lib));
     decode := Some (fn2 (railFenceDecode lib)) |};
  {| id := lit "affine";
     name := lit "Affine Cipher";
     category := lit "Cipher";
     description := lit "Mathematical cipher (ax + b mod 26)";
     canEncode := true;
     canDecode := true;
     reversibility := Reversible;
     riskLevel := Low;
     encode := Some (fn2 (affineEncode lib));
     decode := Some (fn2 (affineDecode lib)) |};
  {| id := lit "polybius";
     name := lit "Polybius Square";
     category := lit "Cipher";
     description := lit "5x5 grid encoding (row/col coordinates)";
     canEncode := true;
     canDecode := true;
     reversibility := Reversible;
     riskLevel := Low;
     encode := Some (pure1 (polybiusEncode host));
     decode := Some (pure1 polybiusDecode) |};
  {| id := lit "sha256";
     name := lit "SHA-256";
     category := lit "Hash";
     description := lit "SHA-256 cryptographic hash (256-bit)";
     canEncode := true;
     canDecode := false;
     reversibility := Irreversible;
     riskLevel := High;
     encode := Some (pure1 sha256Encode);
     decode := None |};
  {| id := lit "sha512";
     name := lit "SHA-512";
     category := lit "Hash";
     description := lit "SHA-512 cryptographic hash (512-bit)";
     canEncode := true;
     canDecode := false;
     reversibility := Irreversible;
     riskLevel := High;
     encode := Some (pure1 sha512Encode);
     decode := None |};
  {| id := lit "md5";
     name := lit "MD5";
     category := lit "Hash";
     description := lit "MD5 hash (128-bit, legacy)";
     canEncode := true;
     canDecode := false;
     reversibility := Irreversible;
     riskLevel := High;
     encode := Some (pure1 md5Encode);
     decode := None |};
  {| id := lit "frequency";
     name := lit "Frequency Analysis";
     category := lit "Analysis";
     description := lit "Character frequency analysis for cryptanalysis";
     canEncode := true;
     canDecode := false;
     reversibility := Irreversible;
     riskLevel := Low;
     encode := Some (fn1 (frequencyAnalysis lib));
     decode := None |};
  {| id := lit "bruteforce-caesar";
     name := lit "Brute Force Caesar";
     category := lit "Analysis";
     description := lit "Try all 25 Caesar/ROT shift values";
     canEncode := false;
     canDecode := true;
     reversibility := Irreversible;
     riskLevel := Low;
     encode := None;
     decode := Some (fn1 (bruteForceCaesar lib)) |};
  {| id := lit "char-stats";
     name := lit "Character Statistics";
     category := lit "Analysis";
     description := lit "Count characters, words, lines, bytes";
     canEncode := true;
     canDecode := false;
     reversibility := Irreversible;
     riskLevel := Low;
     encode := Some (fn1 (characterStats lib));
     decode := None |}
  ].

(** ** Pipeline engine *)

Definition getTransformation (i : jsstring) : option Transformation.t :=
  find (fun t => streq (id t) i) transformations.

(** [error instanceof Error ? error.message : 'Unknown error']. *)
Definition errorMessage (e : Thrown) : jsstring :=
  match e with
  | JsError m => m
  | HostThrown h => hostErrorMessage host h
  | NonError => lit "Unknown error"
  end.

(** The body of the [try] block for one resolved step. *)
Definition tryStep (transformation : Transformation.t) (step : PipelineStep.t)
                   (currentValue : jsstring) (g : Rng) : Result jsstring * Rng :=
  let fn := match PipelineStep.mode step with
            | Encode => encode transformation
            | Decode => decode transformation
            end in
  match fn with
  | None =>
      (Throw (JsError (modeName (PipelineStep.mode step) ++ lit " not supported for "
                       ++ name transformation)), g)
  | Some f => f currentValue (PipelineStep.options step) g
  end.

Definition failed (step : PipelineStep.t) (currentValue msg : jsstring)
  : PipelineResult.t :=
  {| PipelineResult.stepId := PipelineStep.id step;
     PipelineResult.input := currentValue;
     PipelineResult.output := currentValue;
     PipelineResult.success := false;
     PipelineResult.error := Some msg |}.

Definition succeeded (step : PipelineStep.t) (currentValue output : jsstring)
  : PipelineResult.t :=
  {| PipelineResult.stepId := PipelineStep.id step;
     PipelineResult.input := currentValue;
     PipelineResult.output := output;
     PipelineResult.success := true;
     PipelineResult.error := None |}.

(** The [for (const step of steps)] loop on [results], [currentValue] and
    the random source. *)
Fixpoint runSteps (steps : list PipelineStep.t) (results : list PipelineResult.t)
                  (currentValue : jsstring) (g : Rng)
  : list PipelineResult.t * jsstring * Rng :=
  match steps with
  | [] => (results, currentValue, g)
  | step :: rest =>
      match getTransformation (PipelineStep.transformationId step) with
      | None =>
          runSteps rest
                   (results ++ [failed step currentValue (lit "Transformation not found")])
                   currentValue g
      | Some transformation =>
          match tryStep transformation step currentValue g with
          | (Ok output, g') =>
              runSteps rest (results ++ [succeeded step currentValue output]) output g'
          | (Throw error, g') =>
              runSteps rest (results ++ [failed step currentValue (errorMessage error)])
                       currentValue g'
          end
      end
  end.

Definition executePipeline (input : jsstring) (steps : list PipelineStep.t) (g : Rng)
  : Execution * Rng :=
  let '(results, currentValue, g') := runSteps steps [] input g in
  ({| results := results; finalOutput := currentValue |}, g').

(** ** Risk analyzer *)

Definition hashTransformIds : list jsstring :=
  [lit "hash"; lit "sha256"; lit "sha512"; lit "md5"].

Definition analysisTransformIds : list jsstring :=
  [lit "frequency"; lit "char-stats"; lit "qrcode"].

Record Tracked := {
  irreversibleSteps : list jsstring;
  partialSteps : list jsstring;
  hashSteps : list jsstring;
  analysisSteps : list jsstring }.

(** The first loop of [analyzePipeline]. *)
Fixpoint track (steps : list PipelineStep.t) (acc : Tracked) : Tracked :=
  match steps with
  | [] => acc
  | step :: rest =>
      match getTransformation (PipelineStep.transformationId step) with
      | None => track rest acc
      | Some transformation =>
          let sid := PipelineStep.id step in
          track rest
            {| irreversibleSteps :=
                 match reversibility transformation with
                 | Irreversible => irreversibleSteps acc ++ [sid]
                 | _ => irreversibleSteps acc
                 end;
               partialSteps :=
                 match reversibility transformation with
                 | Partial => partialSteps acc ++ [sid]
                 | _ => partialSteps acc
                 end;
               hashSteps :=
                 if arrayIncludes hashTransformIds (id transformation)
                 then hashSteps acc ++ [sid] else hashSteps acc;
               analysisSteps :=
                 if arrayIncludes analysisTransformIds (id transformation)
                 then analysisSteps acc ++ [sid] else analysisSteps acc |}
      end
  end.

Definition MSG_IRREVERSIBLE : jsstring :=
  lit "⚠️ IRREVERSIBLE: This pipeline contains one-way transformations (hashes/analysis). Original data CANNOT be recovered!".
Definition MSG_PARTIAL : jsstring :=
  lit "⚡ PARTIAL LOSS: Some transformations may lose information (e.g., case, formatting, special characters).".
Definition MSG_HASH : jsstring :=
  lit "🔒 HASH DETECTED: Hash functions (MD5, SHA-256, SHA-512) produce fixed-length output. This is ONE-WAY encryption - you cannot decrypt the result!".
Definition MSG_ANALYSIS : jsstring :=
  lit "📊 ANALYSIS MODE: Analysis tools show statistics/patterns, not encoded data. Output is informational only.".
Definition MSG_CHAIN : jsstring :=
  lit "⚠️ CHAIN RISK: Encoding after hashing may produce unexpected results. Hash output is already hexadecimal.".
Definition MSG_MULTIPLE : jsstring :=
  lit "🔗 MULTIPLE IRREVERSIBLE: Multiple one-way transformations detected. Each step further destroys the original data.".

Definition warning (ty : WarningType) (msg : jsstring) (ids : list jsstring)
  : PipelineWarning.t :=
  {| PipelineWarning.type := ty;
     PipelineWarning.message := msg;
     PipelineWarning.stepIds := ids |}.

(** [if (cond) warnings.push(w)]. *)
Definition pushIf (cond : bool) (w : PipelineWarning.t) (warnings : list PipelineWarning.t)
  : list PipelineWarning.t :=
  if cond then warnings ++ [w] else warnings.

(** [getTransformation(s.transformationId)?.id || '']. *)
Definition resolvedId (s : PipelineStep.t) : jsstring :=
  match getTransformation (PipelineStep.transformationId s) with
  | Some t => id t
  | None => []
  end.

Definition hasHash (steps : list PipelineStep.t) : bool :=
  existsb (fun s => arrayIncludes hashTransformIds (resolvedId s)) steps.

Definition hasEncoding (steps : list PipelineStep.t) : bool :=
  existsb (fun s =>
             match getTransformation (PipelineStep.transformationId s) with
             | Some t =>
                 streq (category t) (lit "Base Encoding") &&
                 match PipelineStep.mode s with Encode => true | Decode => false end
             | None => false
             end)
          steps.

Definition analyzePipeline (steps : list PipelineStep.t) : list PipelineWarning.t :=
  let tr := track steps {| irreversibleSteps := []; partialSteps := [];
                           hashSteps := []; analysisSteps := [] |} in
  let warnings := [] in
  let warnings :=
    pushIf (0 <? length (irreversibleSteps tr))%nat
           (warning WIrreversible MSG_IRREVERSIBLE (irreversibleSteps tr)) warnings in
  let warnings :=
    pushIf (0 <? length (partialSteps tr))%nat
           (warning WDataLoss MSG_PARTIAL (partialSteps tr)) warnings in
  let warnings :=
    pushIf (0 <? length (hashSteps tr))%nat
           (warning WIrreversible MSG_HASH (hashSteps tr)) warnings in
  let warnings :=
    pushIf (0 <? length (analysisSteps tr))%nat
           (warning WIrreversible MSG_ANALYSIS (analysisSteps tr)) warnings in
  let warnings :=
    pushIf (hasHash steps && hasEncoding steps)
           (warning WChainRisk MSG_CHAIN (map PipelineStep.id steps)) warnings in
  let warnings :=
    pushIf (1 <? length (irreversibleSteps tr))%nat
           (warning WChainRisk MSG_MULTIPLE (irreversibleSteps tr)) warnings in
  warnings.

(** ** Detection engine *)

(** [transformations.find(t => t.id === i)!]: the assertion mark has no
    effect at run time, so the value may be [undefined]. *)
Definition lookup (i : string) : option Transformation.t :=
  find (fun t => streq (id t) (lit i)) transformations.

(** [if (cond) detected.push(x)]. *)
Definition pushWhen (cond : bool) (x : option Transformation.t)
                    (detected : list (option Transformation.t))
  : list (option Transformation.t) :=
  if cond then detected ++ [x] else detected.

(** [detected.filter(Boolean)]: an object is truthy, [undefined] is not. *)
Definition filterBoolean (detected : list (option Transformation.t))
  : list Transformation.t :=
  flat_map (fun o => match o with Some t => [t] | None => [] end) detected.

Definition base64url : Z -> bool := orC alnum (oneOf (lit "_-")).

(** [/^[A-Za-z0-9_-]+\.[A-Za-z0-9_-]+\.[A-Za-z0-9_-]*$/] *)
Definition RE_JWT : regex :=
  seq [plus (Cls base64url); chr 46; plus (Cls base64url); chr 46; Star (Cls base64url)].
(** [/^[A-Za-z0-9+/]+=*$/] *)
Definition RE_BASE64 : regex :=
  Cat (plus (Cls (orC alnum (oneOf (lit "+/"))))) (Star (chr 61)).
(** [/^[A-Z2-7]+=*$/i] *)
Definition RE_BASE32 : regex :=
  Cat (plus (Cls (ignoreCase (orC upper (range 50 55))))) (Star (chr 61)).
(** [/^[123456789ABCDEFGHJKLMNPQRSTUVWXYZabcdefghijkmnopqrstuvwxyz]+$/] *)
Definition RE_BASE58 : regex :=
  plus (Cls (oneOf (lit "123456789ABCDEFGHJKLMNPQRSTUVWXYZabcdefghijkmnopqrstuvwxyz"))).
(** [/^[0-9a-fA-F]+$/] *)
Definition RE_HEX : regex := plus (Cls hexDigit).
(** [/^[01\s]+$/] *)
Definition RE_BINARY : regex := plus (Cls (orC (oneOf (lit "01")) space)).
(** [/%[0-9A-Fa-f]{2}/] *)
Definition RE_URL : regex := Cat (chr 37) (times 2 (Cls hexDigit)).
(** [/&#\d+;|&#x[0-9a-fA-F]+;|&\w+;/] *)
Definition RE_HTML : regex :=
  Alt (seq [chr 38; chr 35; plus (Cls digit); chr 59])
      (Alt (seq [chr 38; chr 35; chr 120; plus (Cls hexDigit); chr 59])
           (seq [chr 38; plus (Cls word); chr 59])).
(** [/\\u[0-9a-fA-F]{4}/] *)
Definition RE_UNICODE : regex := seq [chr 92; chr 117; times 4 (Cls hexDigit)].
(** [/[\u2800-\u28FF]/] *)
Definition RE_BRAILLE : regex := Cls (range 0x2800 0x28FF).
(** [/[\u200B\u200C\u200D]/] *)
Definition RE_ZEROWIDTH : regex := Cls (oneOf [0x200B; 0x200C; 0x200D]).
(** [/^[⚫⚪]+$/] *)
Definition RE_BINARY_EMOJI : regex := plus (Cls (oneOf (lit "⚫⚪"))).
(** [/^[.,]+$/] *)
Definition RE_PUNCTUATION : regex := plus (Cls (oneOf (lit ".,"))).
(** [/^[\t ]+\n?$/] *)
Definition RE_WHITESPACE : regex := Cat (plus (Cls (oneOf [9; 32]))) (opt (chr 10)).
(** [/^[.\-\s/]+$/] *)
Definition RE_MORSE : regex := plus (Cls (orC (oneOf (lit ".-/")) space)).
(** [/^[AB\s]+$/i] *)
Definition RE_BACON : regex := plus (Cls (ignoreCase (orC (oneOf (lit "AB")) space))).
(** [/^[\d\s]+$/] and [/[1-5]{2}/] *)
Definition RE_DIGITS : regex := plus (Cls (orC digit space)).
Definition RE_POLYBIUS : regex := times 2 (Cls (range 49 53)).
(** [/^[A-Za-z\s]+$/] *)
Definition RE_LETTERS : regex := plus (Cls (orC alpha space)).

Definition emojiAlphabetChars : list jsstring :=
  [lit "🍎"; lit "🍌"; lit "🐱"; lit "🐕"; lit "🦅"; lit "🐸"; lit "🍇"; lit "🏠";
   lit "🍦"; lit "🃏"; lit "🔑"; lit "🦁"; lit "🌙"; lit "📰"; lit "🐙"; lit "🍕";
   lit "👸"; lit "🌈"; lit "⭐"; lit "🌲"; lit "☂️"; lit "🎻"; lit "🐋"; lit "✖️";
   lit "💛"; lit "⚡"].

Definition skinTones : list jsstring :=
  [lit "🏻"; lit "🏼"; lit "🏽"; lit "🏾"; lit "🏿"].

(** [input.length]. *)
Definition len (s : jsstring) : Z := Z.of_nat (length s).

Definition detectPossibleEncodings (input : jsstring) : list Transformation.t :=
  let detected := [] in
  let detected := pushWhen (matches RE_JWT input) (lookup "jwt-decode") detected in
  let detected :=
    pushWhen (matches RE_BASE64 input && (len input mod 4 =? 0))
             (lookup "base64") detected in
  let detected := pushWhen (matches RE_BASE32 input) (lookup "base32") detected in
  let detected := pushWhen (matches RE_BASE58 input) (lookup "base58") detected in
  let detected :=
    pushWhen (startsWith input (lit "<~") && endsWith input (lit "~>"))
             (lookup "base85") detected in
  let detected :=
    pushWhen (matches RE_HEX input && (len input mod 2 =? 0)) (lookup "hex") detected in
  let detected := pushWhen (matches RE_BINARY input) (lookup "binary") detected in
  let detected := pushWhen (search RE_URL input) (lookup "url") detected in
  let detected := pushWhen (search RE_HTML input) (lookup "html-entity") detected in
  let detected := pushWhen (search RE_UNICODE input) (lookup "unicode-escape") detected in
  let detected := pushWhen (search RE_BRAILLE input) (lookup "braille") detected in
  let detected :=
    if search RE_ZEROWIDTH input
    then (detected ++ [lookup "zerowidth-decode"]) ++ [lookup "zerowidth-reveal"]
    else detected in
  let detected :=
    pushWhen (matches RE_BINARY_EMOJI input) (lookup "binary-emoji") detected in
  let detected :=
    pushWhen (existsb (fun emoji => includes input emoji) emojiAlphabetChars)
             (lookup "emoji-alphabet") detected in
  let detected :=
    pushWhen (matches RE_PUNCTUATION input && (len input >=? 8))
             (lookup "punctuation") detected in
  let detected :=
    pushWhen (matches RE_WHITESPACE input && (len input >=? 8))
             (lookup "whitespace") detected in
  let detected :=
    pushWhen (includes input (lit "👋") &&
              existsb (fun tone => includes input tone) skinTones)
             (lookup "emoji-skintone") detected in
  let detected :=
    pushWhen (matches RE_MORSE input && includes input (lit ".") &&
              (includes input (lit "-") || includes input (lit "/")))
             (lookup "morse") detected in
  let detected :=
    pushWhen (matches RE_BACON input &&
              (len (filter (fun c => negb (space c)) input) mod 5 =? 0))
             (lookup "bacon") detected in
  let detected :=
    pushWhen (matches RE_DIGITS input && search RE_POLYBIUS input)
             (lookup "polybius") detected in
  let detected :=
    pushWhen (matches RE_LETTERS input && (len input >=? 10) && (len input <=? 500))
             (lookup "bruteforce-caesar") detected in
  filterBoolean detected.

(** The [while (depth < maxDepth)] loop of [detectMultiLayer]; every turn
    either leaves the loop or adds one to [depth]. *)
Fixpoint multiLayerLoop (fuel : nat) (maxDepth : Z) (layers : list jsstring)
                        (current : jsstring) (depth : Z) (g : Rng)
  : list jsstring * jsstring * Rng :=
  match fuel with
  | O => (layers, current, g)
  | S f =>
      if depth <? maxDepth then
        match detectPossibleEncodings current with
        | [] => (layers, current, g)
        | firstMatch :: _ =>
            match decode firstMatch with
            | None => (layers, current, g)
            | Some dec =>
                match dec current None g with
                | (Ok decoded, g') =>
                    if streq decoded current || (len decoded =? 0)
                    then (layers, current, g')
                    else
                      multiLayerLoop f maxDepth
                        (layers ++ [lit "Layer " ++ toStringRadix 10 (depth + 1)
                                    ++ lit ": " ++ name firstMatch])
                        decoded (depth + 1) g'
                | (Throw _, g') => (layers, current, g')
                end
            end
        end
      else (layers, current, g)
  end.

Definition detectMultiLayer (input : jsstring) (maxDepth : Z) (g : Rng)
  : list jsstring * Rng :=
  let '(layers, current, g') :=
    multiLayerLoop (Z.to_nat maxDepth) maxDepth [] input 0 g in
  (if (0 <? length layers)%nat
   then layers ++ [lit "Final: " ++ sliceTo 100 current
                   ++ (if len current >? 100 then lit "..." else [])]
   else layers,
   g').

(** ** Vocabulary of the properties *)

(** What one turn of the loop does to the current value and the random
    source, and the result it records. *)
Definition stepOnce (step : PipelineStep.t) (currentValue : jsstring) (g : Rng)
  : PipelineResult.t * jsstring * Rng :=
  match getTransformation (PipelineStep.transformationId step) with
  | None =>
      (failed step currentValue (lit "Transformation not found"), currentValue, g)
  | Some transformation =>
      match tryStep transformation step currentValue g with
      | (Ok output, g') => (succeeded step currentValue output, output, g')
      | (Throw error, g') =>
          (failed step currentValue (errorMessage error), currentValue, g')
      end
  end.

(** The value the pipeline has reached after the results [rs], starting
    from [v]: the output of the last success, or [v]. *)
Definition lastAdvanced (v : jsstring) (rs : list PipelineResult.t) : jsstring :=
  fold_left (fun v r => if PipelineResult.success r then PipelineResult.output r else v)
            rs v.

(** Every result takes as input the value reached before it, and a failed
    result returns its input. *)
Fixpoint threaded (v : jsstring) (rs : list PipelineResult.t) : Prop :=
  match rs with
  | [] => True
  | r :: rs' =>
      PipelineResult.input r = v /\
      (PipelineResult.success r = false -> PipelineResult.output r = v) /\
      threaded (if PipelineResult.success r then PipelineResult.output r else v) rs'
  end.

(** The data of the worked example: Base64 of "hi" followed by a step that
    names no transformation. *)
Definition exampleSteps (id1 id2 : jsstring) (o1 o2 : option Options)
  : list PipelineStep.t :=
  [ {| PipelineStep.id := id1; PipelineStep.transformationId := lit "base64";
       PipelineStep.mode := Encode; PipelineStep.options := o1 |};
    {| PipelineStep.id := id2; PipelineStep.transformationId := lit "unknown-id";
       PipelineStep.mode := Encode; PipelineStep.options := o2 |} ].

Definition exampleExecution (id1 id2 : jsstring) : Execution :=
  {| results :=
       [ {| PipelineResult.stepId := id1; PipelineResult.input := lit "hi";
            PipelineResult.output := lit "aGk="; PipelineResult.success := true;
            PipelineResult.error := None |};
         {| PipelineResult.stepId := id2; PipelineResult.input := lit "aGk=";
            PipelineResult.output := lit "aGk="; PipelineResult.success := false;
            PipelineResult.error := Some (lit "Transformation not found") |} ];
     finalOutput := lit "aGk=" |}.

(** Every entry of the working list is the outcome of a search of the
    catalog. *)
Definition fromCatalog (detected : list (option Transformation.t)) : Prop :=
  Forall (fun o => forall t, o = Some t -> In t transformations) detected.

(* ================================================================== *)
(** * Properties *)
(* ================================================================== *)

(** ** The platform model on examples *)

Example lit_wave : lit "👋" = [0xD83D; 0xDC4B].
Proof. reflexivity. Qed.

Example lit_skin_tones :
  SKIN_TONES = [[0xD83C; 0xDFFB]; [0xD83C; 0xDFFC]; [0xD83C; 0xDFFD];
                [0xD83C; 0xDFFE]; [0xD83C; 0xDFFF]].
Proof. reflexivity. Qed.

Example lit_circles : lit "⚫⚪" = [0x26AB; 0x26AA].
Proof. reflexivity. Qed.

Example textEncode_wave : textEncode (lit "é👋") = [0xC3; 0xA9; 0xF0; 0x9F; 0x91; 0x8B].
Proof. reflexivity. Qed.

Example textDecode_malformed :
  textDecode [0xEF; 0xBB; 0xBF; 0x41; 0xE2; 0x82; 0x42; 0xFF] = [65; 0xFFFD; 66; 0xFFFD].
Proof. reflexivity. Qed.

Example btoa_hi : btoa (lit "hi") = Ok (lit "aGk=").
Proof. reflexivity. Qed.

Example btoa_wide : btoa [0x20AC] = Throw (HostThrown InvalidCharacterError).
Proof. reflexivity. Qed.

Example atob_padded : atob (lit "Wlc1 aw==") = Ok (lit "ZW5k").
Proof. reflexivity. Qed.

Example atob_remainder_one : atob (lit "ZW5kx") = Throw (HostThrown InvalidCharacterError).
Proof. reflexivity. Qed.

Example escape_example : escape (lit "a b" ++ [0xE9; 0x20AC]) = lit "a%20b%E9%u20AC".
Proof. reflexivity. Qed.

Example unescape_example : unescape (lit "%u20AC%41%zz%u12") = [0x20AC] ++ lit "A%zz%u12".
Proof. reflexivity. Qed.

Example encodeURIComponent_example :
  encodeURIComponent (lit "a b€!") = Ok (lit "a%20b%E2%82%AC!").
Proof. reflexivity. Qed.

Example encodeURIComponent_lone_surrogate :
  encodeURIComponent [0xD83D] = Throw (HostThrown URIError).
Proof. reflexivity. Qed.

Example decodeURIComponent_example :
  decodeURIComponent (lit "a%20b%E2%82%AC%F0%9F%91%8B") = Ok (lit "a b€👋").
Proof. reflexivity. Qed.

Example decodeURIComponent_overlong :
  decodeURIComponent (lit "%C0%80") = Throw (HostThrown URIError).
Proof. reflexivity. Qed.

Example base64_of_emoji :
  base64Encode (lit "Hello, World! 🔥") = Ok (lit "SGVsbG8sIFdvcmxkISDwn5Sl") /\
  base64Decode (lit "SGVsbG8sIFdvcmxkISDwn5Sl") = Ok (lit "Hello, World! 🔥").
Proof. split; reflexivity. Qed.

Example base32_hi :
  base32Encode (lit "hi") = lit "NBUQ====" /\
  base32Decode sampleHost (lit "NBUQ====") = lit "hi".
Proof. split; reflexivity. Qed.

Example regexes_on_end :
  matches RE_BASE64 (lit "end") = true /\ len (lit "end") mod 4 = 3 /\
  matches RE_BASE32 (lit "end") = true /\
  matches RE_BASE32 (lit "Wlc1aw==") = false.
Proof. repeat split; reflexivity. Qed.

(** ** The matcher of the patterns *)

Lemma nullable_lang (r : regex) : nullable r = true <-> lang r [].
Proof.
  induction r as [| |p|a IHa b IHb|a IHa b IHb|a IHa]; simpl.
  - split; [discriminate | inversion 1].
  - split; [constructor | reflexivity].
  - split; [discriminate | inversion 1].
  - rewrite andb_true_iff, IHa, IHb. split.
    + intros [Ha Hb]. change (@nil Z) with (@nil Z ++ []). constructor; assumption.
    + intros H. inversion H; subst.
      match goal with E : _ ++ _ = [] |- _ => apply app_eq_nil in E as [-> ->] end.
      split; assumption.
  - rewrite orb_true_iff, IHa, IHb. split.
    + intros [H|H]; [apply lang_alt_l | apply lang_alt_r]; exact H.
    + inversion 1; subst; [left | right]; assumption.
  - split; [constructor | reflexivity].
Qed.

Lemma cat_lang (a b : regex) (s : jsstring) : lang (cat a b) s <-> lang (Cat a b) s.
Proof.
  assert (Hvoid : forall s, ~ lang Void s) by (intros s' H; inversion H).
  assert (Hl : forall b s, lang b s -> lang (Cat Eps b) s).
  { intros b' s' H. change s' with ([] ++ s'). constructor; [constructor | exact H]. }
  assert (Hr : forall a s, lang a s -> lang (Cat a Eps) s).
  { intros a' s' H. rewrite <- (app_nil_r s'). constructor; [exact H | constructor]. }
  assert (Hl' : forall b s, lang (Cat Eps b) s -> lang b s).
  { intros b' s' H. inversion H as [| |? ? s1 s2 H1 H2| | | |]; subst.
    inversion H1; subst. exact H2. }
  assert (Hr' : forall a s, lang (Cat a Eps) s -> lang a s).
  { intros a' s' H. inversion H as [| |? ? s1 s2 H1 H2| | | |]; subst.
    inversion H2; subst. rewrite app_nil_r. exact H1. }
  assert (Hv1 : forall b s, ~ lang (Cat Void b) s).
  { intros b' s' H. inversion H as [| |? ? s1 s2 H1 H2| | | |]; subst. inversion H1. }
  assert (Hv2 : forall a s, ~ lang (Cat a Void) s).
  { intros a' s' H. inversion H as [| |? ? s1 s2 H1 H2| | | |]; subst. inversion H2. }
  destruct a, b; simpl; split; intros H;
    try exact H;
    try (exfalso; eapply Hvoid; exact H);
    try (exfalso; eapply Hv1; exact H);
    try (exfalso; eapply Hv2; exact H);
    try (apply Hl; exact H); try (apply Hr; exact H);
    try (apply Hl'; exact H); try (apply Hr'; exact H).
Qed.

Lemma alt_lang (a b : regex) (s : jsstring) : lang (alt a b) s <-> lang (Alt a b) s.
Proof.
  assert (Hvoid : forall s, ~ lang Void s) by (intros s' H; inversion H).
  destruct a, b; simpl; split; intros H;
    try exact H;
    try (apply lang_alt_r; exact H);
    try (apply lang_alt_l; exact H);
    try (inversion H; subst; [assumption | exfalso; eapply Hvoid; eassumption]);
    try (inversion H; subst; [exfalso; eapply Hvoid; eassumption | assumption]).
Qed.

(** A non-empty word of [Star a] starts with a non-empty word of [a]. *)
Lemma star_cons (a : regex) (c : Z) (s : jsstring) :
  lang (Star a) (c :: s) ->
  exists s1 s2, s = s1 ++ s2 /\ lang a (c :: s1) /\ lang (Star a) s2.
Proof.
  intros H. remember (Star a) as r eqn:Hr. remember (c :: s) as w eqn:Hw.
  revert s Hw.
  induction H as [| | | | | |a' w1 w2 H1 _ H2 IH2]; intros u Hw;
    try discriminate.
  injection Hr as ->.
  destruct w1 as [|x w1'].
  - simpl in Hw. apply IH2; [reflexivity | exact Hw].
  - simpl in Hw. injection Hw as Hx Hu. subst. exists w1', w2. auto.
Qed.

Lemma deriv_lang (r : regex) : forall (c : Z) (s : jsstring),
  lang (deriv c r) s <-> lang r (c :: s).
Proof.
  induction r as [| |p|a IHa b IHb|a IHa b IHb|a IHa]; intros c s; simpl.
  - split; inversion 1.
  - split; inversion 1.
  - destruct (p c) eqn:Hp; split; intros H.
    + inversion H; subst. constructor. exact Hp.
    + inversion H; subst. constructor.
    + inversion H.
    + inversion H; subst. congruence.
  - assert (Hleft : forall s, lang (cat (deriv c a) b) s ->
                              lang (Cat a b) (c :: s)).
    { intros s' H. apply cat_lang in H.
      inversion H as [| |? ? s1 s2 H1 H2| | | |]; subst.
      apply IHa in H1. change (c :: s1 ++ s2) with ((c :: s1) ++ s2).
      constructor; assumption. }
    assert (Hsplit : forall s, lang (Cat a b) (c :: s) ->
                               lang (cat (deriv c a) b) s \/
                               (lang a [] /\ lang b (c :: s))).
    { intros s' H. remember (c :: s') as w eqn:Hw.
      inversion H as [| |? ? s1 s2 H1 H2| | | |]; subst.
      destruct s1 as [|x s1'].
      - right. simpl in *. subst. auto.
      - left. simpl in *.
        match goal with E : _ :: _ = _ :: _ |- _ => injection E as Hx Hu; subst end.
        apply cat_lang. constructor; [apply IHa; exact H1 | exact H2]. }
    destruct (nullable a) eqn:Hn.
    + rewrite alt_lang. split.
      * intros H. inversion H; subst; [apply Hleft; assumption|].
        change (c :: s) with ([] ++ c :: s).
        constructor; [apply nullable_lang; exact Hn | apply IHb; assumption].
      * intros H. destruct (Hsplit _ H) as [H'|[_ H']].
        -- apply lang_alt_l. exact H'.
        -- apply lang_alt_r. apply IHb. exact H'.
    + split; [apply Hleft|].
      intros H. destruct (Hsplit _ H) as [H'|[H' _]]; [exact H'|].
      apply nullable_lang in H'. congruence.
  - rewrite alt_lang. split; intros H; inversion H; subst.
    + apply lang_alt_l. apply IHa. assumption.
    + apply lang_alt_r. apply IHb. assumption.
    + apply lang_alt_l. apply IHa. assumption.
    + apply lang_alt_r. apply IHb. assumption.
  - rewrite cat_lang. split; intros H.
    + inversion H as [| |? ? s1 s2 H1 H2| | | |]; subst.
      apply IHa in H1. change (c :: s1 ++ s2) with ((c :: s1) ++ s2).
      constructor; assumption.
    + apply star_cons in H as (s1 & s2 & -> & H1 & H2).
      constructor; [apply IHa; exact H1 | exact H2].
Qed.

(** [matches] decides the language of the pattern. *)
Lemma matches_lang (s : jsstring) : forall r : regex,
  matches r s = true <-> lang r s.
Proof.
  induction s as [|c s IH]; intros r; simpl.
  - apply nullable_lang.
  - rewrite IH. apply deriv_lang.
Qed.

Lemma anyStar_lang (s : jsstring) : lang (Star anyUnit) s.
Proof.
  induction s as [|c s IH]; [constructor|].
  change (c :: s) with ([c] ++ s). constructor; [constructor; reflexivity | exact IH].
Qed.

(** [search] finds the language of the pattern in some substring. *)
Lemma search_lang (r : regex) (s : jsstring) :
  search r s = true <-> exists pre mid post, s = pre ++ mid ++ post /\ lang r mid.
Proof.
  unfold search. rewrite matches_lang. split.
  - intros H. inversion H as [| |? ? pre rest _ Hrest| | | |]; subst.
    inversion Hrest as [| |? ? mid post Hmid _| | | |]; subst.
    exists pre, mid, post. split; [reflexivity | exact Hmid].
  - intros (pre & mid & post & -> & Hmid).
    constructor; [apply anyStar_lang|].
    constructor; [exact Hmid | apply anyStar_lang].
Qed.

(** ** Strings *)

Lemma streq_eq (a b : jsstring) : streq a b = true <-> a = b.
Proof.
  revert b; induction a as [|x a IH]; intros [|y b]; simpl; split;
    try congruence; try discriminate.
  - intros H. apply andb_true_iff in H as [Hx Hr].
    apply Z.eqb_eq in Hx. apply IH in Hr. congruence.
  - intros H. injection H as -> ->.
    rewrite Z.eqb_refl. simpl. apply IH. reflexivity.
Qed.

Lemma streq_refl (a : jsstring) : streq a a = true.
Proof. apply streq_eq. reflexivity. Qed.

(** ** Registry lookups *)

Lemma getTransformation_In (i : jsstring) (t : Transformation.t) :
  getTransformation i = Some t -> In t transformations /\ id t = i.
Proof.
  unfold getTransformation. intros H. apply find_some in H as [Hin Heq].
  split; [exact Hin | apply streq_eq; exact Heq].
Qed.

(** ** Pipeline engine *)

Lemma runSteps_cons step rest acc cv g :
  runSteps (step :: rest) acc cv g =
  let '(r, v, g') := stepOnce step cv g in runSteps rest (acc ++ [r]) v g'.
Proof.
  unfold stepOnce. simpl.
  destruct (getTransformation _) as [t|]; [|reflexivity].
  destruct (tryStep t step cv g) as [[out|e] g']; reflexivity.
Qed.

Lemma runSteps_acc steps : forall acc cv g,
  runSteps steps acc cv g =
  let '(rs, v, g') := runSteps steps [] cv g in (acc ++ rs, v, g').
Proof.
  induction steps as [|step rest IH]; intros acc cv g.
  - simpl. rewrite app_nil_r. reflexivity.
  - rewrite !runSteps_cons.
    destruct (stepOnce step cv g) as [[r v] g'].
    rewrite (IH (acc ++ [r])), (IH ([] ++ [r])).
    destruct (runSteps rest [] v g') as [[rs v'] g''].
    simpl. rewrite <- app_assoc. reflexivity.
Qed.

Lemma runSteps_app pre : forall post cv g,
  runSteps (pre ++ post) [] cv g =
  let '(r1, v1, g1) := runSteps pre [] cv g in
  let '(r2, v2, g2) := runSteps post [] v1 g1 in
  (r1 ++ r2, v2, g2).
Proof.
  induction pre as [|step rest IH]; intros post cv g.
  - simpl. destruct (runSteps post [] cv g) as [[r2 v2] g2]. reflexivity.
  - rewrite <- app_comm_cons, !runSteps_cons.
    destruct (stepOnce step cv g) as [[r v] g'].
    rewrite (runSteps_acc (rest ++ post)), (runSteps_acc rest), IH.
    destruct (runSteps rest [] v g') as [[r1 v1] g1].
    destruct (runSteps post [] v1 g1) as [[r2 v2] g2].
    simpl. reflexivity.
Qed.

Lemma stepOnce_shape step cv g :
  let '(r, v, _) := stepOnce step cv g in
  PipelineResult.stepId r = PipelineStep.id step /\
  PipelineResult.input r = cv /\
  (PipelineResult.success r = false -> PipelineResult.output r = cv) /\
  v = (if PipelineResult.success r then PipelineResult.output r else cv).
Proof.
  unfold stepOnce.
  destruct (getTransformation _) as [t|]; [|simpl; auto].
  destruct (tryStep t step cv g) as [[out|e] g']; simpl; auto.
  repeat split; auto. discriminate.
Qed.

Lemma runSteps_threaded steps : forall cv g,
  let '(rs, v, _) := runSteps steps [] cv g in
  map PipelineResult.stepId rs = map PipelineStep.id steps /\
  threaded cv rs /\
  v = lastAdvanced cv rs.
Proof.
  induction steps as [|step rest IH]; intros cv g.
  - simpl. auto.
  - rewrite runSteps_cons.
    pose proof (stepOnce_shape step cv g) as Hs.
    destruct (stepOnce step cv g) as [[r v] g'].
    destruct Hs as (Hid & Hin & Hfail & Hv).
    rewrite runSteps_acc. specialize (IH v g').
    destruct (runSteps rest [] v g') as [[rs v'] g''].
    destruct IH as (IHid & IHth & IHlast).
    simpl. unfold lastAdvanced in *. simpl. rewrite <- Hv.
    repeat split; auto. congruence.
Qed.

(** C8. On the empty step list [executePipeline] returns no results and the
    input unchanged as [finalOutput], for every input (and leaves the random
    source as it was); in particular for the input "SECRET". *)
Theorem executePipeline_no_steps :
  (forall (input : jsstring) (g : Rng),
      executePipeline input [] g = ({| results := []; finalOutput := input |}, g)) /\
  (forall g : Rng,
      executePipeline (lit "SECRET") [] g =
      ({| results := []; finalOutput := lit "SECRET" |}, g)).
Proof. split; intros; reflexivity. Qed.

(** C1. A step whose [transformationId] has no registry entry, standing
    after the steps [pre] and before the steps [post], yields the failed
    result with error "Transformation not found" whose input and output are
    the value [v] reached by [pre], and the steps of [post] are all
    processed, starting from that same [v].  For every step list the results
    follow the steps in order, one per step, every result takes the last
    advanced value as input, and [finalOutput] is the last advanced value
    (the input when no step succeeded).  On "hi" with a Base64 encode step
    and a step with the id 'unknown-id', the results are the success with
    "aGk=", the Base64 text of "hi", and the named failure, and
    [finalOutput] is "aGk=". *)
Theorem executePipeline_missing_transformation :
  (forall (input : jsstring) (pre post : list PipelineStep.t) (s : PipelineStep.t)
          (g : Rng),
      getTransformation (PipelineStep.transformationId s) = None ->
      let before := executePipeline input pre g in
      let v := finalOutput (fst before) in
      let after := executePipeline v post (snd before) in
      let whole := executePipeline input (pre ++ s :: post) g in
      results (fst whole) =
        results (fst before)
        ++ {| PipelineResult.stepId := PipelineStep.id s;
              PipelineResult.input := v;
              PipelineResult.output := v;
              PipelineResult.success := false;
              PipelineResult.error := Some (lit "Transformation not found") |}
        :: results (fst after) /\
      finalOutput (fst whole) = finalOutput (fst after) /\
      snd whole = snd after) /\
  (forall (input : jsstring) (steps : list PipelineStep.t) (g : Rng),
      let whole := executePipeline input steps g in
      map PipelineResult.stepId (results (fst whole)) = map PipelineStep.id steps /\
      threaded input (results (fst whole)) /\
      finalOutput (fst whole) = lastAdvanced input (results (fst whole))) /\
  (forall id1 id2 o1 o2 g,
      base64Encode (lit "hi") = Ok (lit "aGk=") /\
      executePipeline (lit "hi") (exampleSteps id1 id2 o1 o2) g =
      (exampleExecution id1 id2, g)).
Proof.
  split; [|split].
  - intros input pre post s g Hmissing. cbv zeta.
    unfold executePipeline.
    rewrite runSteps_app.
    destruct (runSteps pre [] input g) as [[r1 v1] g1].
    cbn [fst snd finalOutput results].
    rewrite runSteps_cons. unfold stepOnce. rewrite Hmissing.
    rewrite (runSteps_acc post).
    destruct (runSteps post [] v1 g1) as [[r2 v2] g2].
    cbn [fst snd finalOutput results app]. repeat split; reflexivity.
  - intros input steps g. cbv zeta.
    pose proof (runSteps_threaded steps input g) as Hth.
    unfold executePipeline.
    destruct (runSteps steps [] input g) as [[rs v] g'].
    cbn [fst snd finalOutput results]. exact Hth.
  - intros id1 id2 o1 o2 g. split; reflexivity.
Qed.


(** ** Risk analyzer *)

Lemma arrayIncludes_In (xs : list jsstring) (x : jsstring) :
  arrayIncludes xs x = true <-> In x xs.
Proof.
  unfold arrayIncludes. rewrite existsb_exists. split.
  - intros (y & Hin & Heq). apply streq_eq in Heq. subst. exact Hin.
  - intros Hin. exists x. split; [exact Hin | apply streq_refl].
Qed.

(** The four hash ids are all in the catalog. *)
Lemma hash_ids_registered (i : jsstring) :
  In i hashTransformIds -> exists t, getTransformation i = Some t /\ id t = i.
Proof.
  intros Hin.
  assert (Hsome : exists t, getTransformation i = Some t).
  { unfold hashTransformIds in Hin. simpl in Hin.
    destruct Hin as [<-|[<-|[<-|[<-|[]]]]]; eexists; reflexivity. }
  destruct Hsome as (t & Ht). exists t. split; [exact Ht|].
  apply getTransformation_In in Ht. apply Ht.
Qed.

Lemma pushIf_keeps cond w ws x : In x ws -> In x (pushIf cond w ws).
Proof.
  intros Hin. unfold pushIf. destruct cond; [apply in_or_app; left|]; exact Hin.
Qed.

Lemma pushIf_true w ws : In w (pushIf true w ws).
Proof. unfold pushIf. apply in_or_app. right. left. reflexivity. Qed.

(** C5. For a pipeline of the single step [{sha256, encode}],
    [analyzePipeline] returns the generic [irreversible] warning and the
    hash-specific [irreversible] warning, whose messages differ, and the
    [stepIds] of each is exactly the id of that step. *)
Theorem analyzePipeline_single_sha256 :
  forall (sid : jsstring) (opts : option Options),
    let ws := analyzePipeline
                [ {| PipelineStep.id := sid;
                     PipelineStep.transformationId := lit "sha256";
                     PipelineStep.mode := Encode;
                     PipelineStep.options := opts |} ] in
    ws = [ warning WIrreversible MSG_IRREVERSIBLE [sid];
           warning WIrreversible MSG_HASH [sid] ] /\
    MSG_IRREVERSIBLE <> MSG_HASH /\
    (2 <= length (filter (fun w => match PipelineWarning.type w with
                                   | WIrreversible => true
                                   | _ => false
                                   end) ws))%nat.
Proof.
  intros sid opts ws.
  assert (Hws : ws = [ warning WIrreversible MSG_IRREVERSIBLE [sid];
                       warning WIrreversible MSG_HASH [sid] ]).
  { subst ws. vm_compute. reflexivity. }
  split; [exact Hws|]. split.
  - intros Heq. vm_compute in Heq. discriminate Heq.
  - rewrite Hws. simpl. apply le_n.
Qed.

(** C7. When some step names a transformation of the hash set and some
    step resolves to a transformation of category "Base Encoding" and is in
    encode mode, [analyzePipeline] emits the [chain-risk] warning whose
    [stepIds] are the ids of all the steps, in order. *)
Theorem analyzePipeline_chain_risk
        (steps : list PipelineStep.t)
        (Hhash : exists s, In s steps /\
                           In (PipelineStep.transformationId s) hashTransformIds)
        (Henc : exists s t, In s steps /\
                            getTransformation (PipelineStep.transformationId s) = Some t /\
                            category t = lit "Base Encoding" /\
                            PipelineStep.mode s = Encode) :
  In (warning WChainRisk MSG_CHAIN (map PipelineStep.id steps)) (analyzePipeline steps).
Proof.
  assert (Hh : hasHash steps = true).
  { destruct Hhash as (s & Hin & Hid).
    unfold hasHash. apply existsb_exists. exists s. split; [exact Hin|].
    destruct (hash_ids_registered Hid) as (t & Ht & Heq).
    unfold resolvedId. rewrite Ht, Heq. apply arrayIncludes_In. exact Hid. }
  assert (He : hasEncoding steps = true).
  { destruct Henc as (s & t & Hin & Ht & Hcat & Hmode).
    unfold hasEncoding. apply existsb_exists. exists s. split; [exact Hin|].
    rewrite Ht, Hcat, Hmode. rewrite streq_refl. reflexivity. }
  unfold analyzePipeline. rewrite Hh, He. cbn [andb].
  apply pushIf_keeps. apply pushIf_true.
Qed.

(** ** Registry *)

(** C9. Every descriptor of the catalog satisfies the capability invariant:
    without [canEncode] there is no [encode], without [canDecode] there is
    no [decode]. *)
Theorem transformations_capability_invariant :
  Forall (fun t : Transformation.t =>
            (canEncode t = false -> encode t = None) /\
            (canDecode t = false -> decode t = None))
         transformations.
Proof.
  unfold transformations.
  repeat (apply Forall_cons;
          [ split; cbn [canEncode canDecode encode decode]; intros H;
            first [ discriminate H | reflexivity ] | ]).
  apply Forall_nil.
Qed.

(** ** Detection engine *)

Lemma lookup_fromCatalog (i : string) (t : Transformation.t) :
  lookup i = Some t -> In t transformations.
Proof. unfold lookup. intros H. apply find_some in H. apply H. Qed.

Lemma pushWhen_fromCatalog cond i detected :
  fromCatalog detected -> fromCatalog (pushWhen cond (lookup i) detected).
Proof.
  intros H. unfold pushWhen. destruct cond; [|exact H].
  apply Forall_app. split; [exact H|].
  constructor; [apply lookup_fromCatalog | constructor].
Qed.

Lemma filterBoolean_fromCatalog detected :
  fromCatalog detected -> Forall (fun t => In t transformations) (filterBoolean detected).
Proof.
  unfold fromCatalog, filterBoolean. induction 1 as [|o l Ho Hl IH]; simpl.
  - constructor.
  - destruct o as [t|]; simpl; [constructor; [apply Ho; reflexivity | exact IH] | exact IH].
Qed.

Lemma detectPossibleEncodings_registered (input : jsstring) :
  Forall (fun t => In t transformations) (detectPossibleEncodings input).
Proof.
  unfold detectPossibleEncodings. apply filterBoolean_fromCatalog.
  repeat first
    [ apply pushWhen_fromCatalog
    | match goal with
      | |- fromCatalog (if ?c then _ else _) => destruct c
      | |- fromCatalog ((_ ++ [lookup _]) ++ [lookup _]) =>
          apply (pushWhen_fromCatalog true); apply (pushWhen_fromCatalog true)
      end ].
  all: constructor.
Qed.

Lemma no_jwt_decode_entry :
  Forall (fun t => id t <> lit "jwt-decode") transformations.
Proof.
  unfold transformations.
  repeat (apply Forall_cons;
          [ cbn [id]; intros H; vm_compute in H; discriminate H | ]).
  apply Forall_nil.
Qed.

(** C10. Whatever the input, every element [detectPossibleEncodings]
    returns is a descriptor of the catalog.  The id 'jwt-decode' of the JWT
    heuristic names no descriptor, so its search finds nothing and nothing
    with that id is returned; on "a.b.c", where the JWT heuristic alone
    applies, the list is empty. *)
Theorem detectPossibleEncodings_only_registered :
  (forall input : jsstring,
      Forall (fun t => In t transformations /\ id t <> lit "jwt-decode")
             (detectPossibleEncodings input)) /\
  lookup "jwt-decode" = None /\
  matches RE_JWT (lit "a.b.c") = true /\
  detectPossibleEncodings (lit "a.b.c") = [].
Proof.
  split; [|repeat split; vm_compute; reflexivity].
  intros input.
  pose proof (detectPossibleEncodings_registered input) as H.
  pose proof no_jwt_decode_entry as Hno.
  rewrite Forall_forall in *. intros t Ht. split; auto.
Qed.

(** [multiLayerLoop] never needs more turns than there are depths left. *)
Lemma multiLayerLoop_fuel (fuel : nat) : forall maxDepth layers current depth g,
  (Z.to_nat (maxDepth - depth) <= fuel)%nat ->
  multiLayerLoop fuel maxDepth layers current depth g =
  multiLayerLoop (Z.to_nat (maxDepth - depth)) maxDepth layers current depth g.
Proof.
  induction fuel as [|fuel IH]; intros maxDepth layers current depth g Hle.
  - replace (Z.to_nat (maxDepth - depth)) with 0%nat by lia. reflexivity.
  - destruct (Z.ltb_spec depth maxDepth) as [Hlt|Hge].
    + replace (Z.to_nat (maxDepth - depth))
        with (S (Z.to_nat (maxDepth - (depth + 1)))) by lia.
      simpl. apply Z.ltb_lt in Hlt. rewrite Hlt.
      destruct (detectPossibleEncodings current) as [|firstMatch rest]; [reflexivity|].
      destruct (decode firstMatch) as [dec|]; [|reflexivity].
      destruct (dec current None g) as [[decoded|e] g']; [|reflexivity].
      destruct (streq decoded current || (len decoded =? 0)); [reflexivity|].
      apply IH. lia.
    + replace (Z.to_nat (maxDepth - depth)) with 0%nat by lia.
      simpl. apply Z.ltb_ge in Hge. rewrite Hge. reflexivity.
Qed.

(** C4, as the code has it.  On "Wlc1aw==" with [maxDepth = 3] the trace has
    three layers, Base64, Base64 and then Base32, because the text "end"
    itself passes the Base32 test, and the final entry is "Final: #".  With
    [maxDepth = 2] the trace has the two Base64 layers and the final entry
    "Final: end". *)
Theorem detectMultiLayer_base64_twice :
  forall g : Rng,
    detectMultiLayer (lit "Wlc1aw==") 3 g =
      ([lit "Layer 1: Base64"; lit "Layer 2: Base64"; lit "Layer 3: Base32";
        lit "Final: #"], g) /\
    detectMultiLayer (lit "Wlc1aw==") 2 g =
      ([lit "Layer 1: Base64"; lit "Layer 2: Base64"; lit "Final: end"], g) /\
    base64Encode (lit "end") = Ok (lit "ZW5k") /\
    base64Encode (lit "ZW5k") = Ok (lit "Wlc1aw==").
Proof.
  intros g. repeat split; vm_compute; reflexivity.
Qed.

(** ** Algorithms *)

(** The codes below 128 on which the skin-tone pair gives the byte back. *)
Lemma emojiSkinTone_roundtrip_ascii :
  forallb (fun c => Bool.eqb (streq (emojiSkinToneDecode (emojiSkinToneEncode [c])) [c])
                             (c <? 5))
          (map Z.of_nat (List.seq 0 128)) = true.
Proof. vm_compute. reflexivity. Qed.

(** [MD5.padZeros] stops by itself: with the 64 turns [md5Encode] allows
    it, the padded length is 56 modulo 64. *)
Lemma padZeros_length (fuel : nat) : forall bytes : list Z,
  (Z.to_nat ((56 - Z.of_nat (length bytes)) mod 64) <= fuel)%nat ->
  Z.of_nat (length (MD5.padZeros fuel bytes)) mod 64 = 56.
Proof.
  induction fuel as [|fuel IH]; intros bytes Hle; simpl.
  - assert (H0 : (56 - Z.of_nat (length bytes)) mod 64 = 0).
    { pose proof (Z.mod_pos_bound (56 - Z.of_nat (length bytes)) 64). lia. }
    revert H0. clear. intros H0.
    pose proof (Z.div_mod (56 - Z.of_nat (length bytes)) 64).
    pose proof (Z.div_mod (Z.of_nat (length bytes)) 64).
    pose proof (Z.mod_pos_bound (Z.of_nat (length bytes)) 64). lia.
  - destruct (Z.eqb_spec (Z.of_nat (length bytes) mod 64) 56) as [Heq|Hne]; simpl.
    + exact Heq.
    + apply IH. rewrite length_app. simpl length.
      pose proof (Z.mod_pos_bound (56 - Z.of_nat (length bytes)) 64).
      pose proof (Z.mod_pos_bound (56 - Z.of_nat (length bytes + 1)) 64).
      pose proof (Z.div_mod (56 - Z.of_nat (length bytes)) 64).
      pose proof (Z.div_mod (56 - Z.of_nat (length bytes + 1)) 64).
      pose proof (Z.div_mod (Z.of_nat (length bytes)) 64).
      pose proof (Z.mod_pos_bound (Z.of_nat (length bytes)) 64).
      lia.
Qed.

Lemma padded_length (input : jsstring) :
  Z.of_nat (length (MD5.padded input)) mod 64 = 0.
Proof.
  unfold MD5.padded.
  match goal with |- context [MD5.padZeros 64 ?b] => set (bs := b) end.
  rewrite length_app, Nat2Z.inj_add. cbn [length map].
  assert (H : Z.of_nat (length (MD5.padZeros 64 bs)) mod 64 = 56).
  { apply padZeros_length.
    pose proof (Z.mod_pos_bound (56 - Z.of_nat (length bs)) 64). lia. }
  revert H. generalize (Z.of_nat (length (MD5.padZeros 64 bs))). intros n H.
  pose proof (Z.div_mod n 64). pose proof (Z.div_mod (n + Z.of_nat 8) 64).
  pose proof (Z.mod_pos_bound (n + Z.of_nat 8) 64).
  change (Z.of_nat 8) with 8 in *. lia.
Qed.

(** The length bytes repeat the low word: on a one-letter message the code
    does not return the MD5 digest 0cc175b9c0f1b6a831c399e269772661. *)
Remark md5_one_letter : md5Encode (lit "a") = lit "88d7c6d001048f7196bb9634ecf9c394".
Proof. vm_compute. reflexivity. Qed.

(** [skinToneLoop] moves [i] forward at every turn, so the turns
    [emojiSkinToneDecode] allows it are enough. *)
Lemma skinToneLoop_fuel (fuel : nat) : forall chars i bytes,
  0 <= i ->
  (length chars <= fuel + Z.to_nat i)%nat ->
  skinToneLoop (S fuel) chars i bytes = skinToneLoop fuel chars i bytes.
Proof.
  induction fuel as [|fuel IH]; intros chars i bytes Hi Hle.
  - simpl. destruct (Z.ltb_spec i (Z.of_nat (length chars) - 3)); [lia | reflexivity].
  - change (skinToneLoop (S (S fuel)) chars i bytes)
      with (if i <? Z.of_nat (length chars) - 3 then
              let at_ k := nth (Z.to_nat (i + k)) chars [] in
              if streq (at_ 0) (lit "👋") && streq (at_ 2) (lit "👋") then
                let high := arrayIndexOf SKIN_TONES (at_ 1) in
                let low := arrayIndexOf SKIN_TONES (at_ 3) in
                if negb (high =? -1) && negb (low =? -1)
                then skinToneLoop (S fuel) chars (i + 3 + 1) (bytes ++ [high * 32 + low])
                else skinToneLoop (S fuel) chars (i + 1) bytes
              else skinToneLoop (S fuel) chars (i + 1) bytes
            else bytes).
    change (skinToneLoop (S fuel) chars i bytes)
      with (if i <? Z.of_nat (length chars) - 3 then
              let at_ k := nth (Z.to_nat (i + k)) chars [] in
              if streq (at_ 0) (lit "👋") && streq (at_ 2) (lit "👋") then
                let high := arrayIndexOf SKIN_TONES (at_ 1) in
                let low := arrayIndexOf SKIN_TONES (at_ 3) in
                if negb (high =? -1) && negb (low =? -1)
                then skinToneLoop fuel chars (i + 3 + 1) (bytes ++ [high * 32 + low])
                else skinToneLoop fuel chars (i + 1) bytes
              else skinToneLoop fuel chars (i + 1) bytes
            else bytes).
    cbv zeta.
    destruct (i <? Z.of_nat (length chars) - 3); [|reflexivity].
    destruct (streq _ _ && streq _ _).
    + destruct (negb _ && negb _); apply IH; lia.
    + apply IH; lia.
Qed.

(** Polybius, also marked reversible, returns upper-case text with J read
    as I and without the separators, as its grid is built to. *)
Remark polybius_uppercases :
  polybiusDecode (polybiusEncode host (lit "Jam 1")) = lit "IAM".
Proof. reflexivity. Qed.

(** The round trip does hold on the self-inverse entries 'rot13' and
    'reverse' of the catalog, for every string. *)
Lemma rot13_round_trip (s : jsstring) : rot13 (rot13 s) = s.
Proof.
  unfold rot13. rewrite map_map. rewrite <- (map_id s) at 2.
  apply map_ext. intros c.
  destruct (alpha c) eqn:E; [|rewrite E; reflexivity].
  unfold alpha, orC, upper, lower, range in E |- *.
  apply orb_true_iff in E.
  destruct E as [E|E]; apply andb_true_iff in E as [E1 E2];
    apply Z.leb_le in E1, E2.
  - replace (c <=? 90) with true by (symmetry; apply Z.leb_le; lia).
    pose proof (Z.mod_pos_bound (c - 65 + 13) 26 ltac:(lia)) as Hb.
    pose proof (Z.div_mod (c - 65 + 13) 26 ltac:(lia)) as Hd.
    set (d := (c - 65 + 13) mod 26 + 65) in *.
    replace (65 <=? d) with true by (symmetry; apply Z.leb_le; lia).
    replace (d <=? 90) with true by (symmetry; apply Z.leb_le; lia).
    cbn [andb orb].
    pose proof (Z.mod_pos_bound (d - 65 + 13) 26 ltac:(lia)).
    pose proof (Z.div_mod (d - 65 + 13) 26 ltac:(lia)).
    lia.
  - replace (c <=? 90) with false by (symmetry; apply Z.leb_gt; lia).
    pose proof (Z.mod_pos_bound (c - 97 + 13) 26 ltac:(lia)) as Hb.
    pose proof (Z.div_mod (c - 97 + 13) 26 ltac:(lia)) as Hd.
    set (d := (c - 97 + 13) mod 26 + 97) in *.
    replace (d <=? 90) with false by (symmetry; apply Z.leb_gt; lia).
    replace (97 <=? d) with true by (symmetry; apply Z.leb_le; lia).
    replace (d <=? 122) with true by (symmetry; apply Z.leb_le; lia).
    rewrite andb_false_r. cbn [andb orb].
    pose proof (Z.mod_pos_bound (d - 97 + 13) 26 ltac:(lia)).
    pose proof (Z.div_mod (d - 97 + 13) 26 ltac:(lia)).
    lia.
Qed.

Lemma reverseString_round_trip (s : jsstring) : reverseString (reverseString s) = s.
Proof. unfold reverseString. apply rev_involutive. Qed.

(** C2, at the failing input.  The catalog entry 'emoji-skintone' is marked
    reversible and has both operations, yet encoding "A" and decoding the
    result gives "@". *)
Theorem emojiSkinTone_roundtrip_fails :
  forall g : Rng,
  exists t enc dec,
    getTransformation (lit "emoji-skintone") = Some t /\
    reversibility t = Reversible /\
    encode t = Some enc /\
    decode t = Some dec /\
    enc (lit "A") None g = (Ok (lit "👋🏽👋🏻"), g) /\
    dec (lit "👋🏽👋🏻") None g = (Ok (lit "@"), g) /\
    lit "@" <> lit "A".
Proof.
  intros g. do 3 eexists.
  split; [reflexivity|].
  do 3 (split; [reflexivity|]).
  repeat split; try (vm_compute; reflexivity).
  intros H. vm_compute in H. discriminate H.
Qed.

(** C3, at the failing input.  The [encode] of the catalog entry 'sha256'
    returns sixty-four zeros on the empty string, not the SHA-256 digest
    e3b0c442...b855. *)
Theorem sha256_empty_not_digest :
  forall g : Rng,
  exists t enc,
    getTransformation (lit "sha256") = Some t /\
    encode t = Some enc /\
    enc [] None g =
      (Ok (lit "0000000000000000000000000000000000000000000000000000000000000000"), g) /\
    sha256Encode [] <>
      lit "e3b0c44298fc1c149afbf4c8996fb92427ae41e4649b934ca495991b7852b855".
Proof.
  intros g. do 2 eexists.
  split; [reflexivity|].
  split; [reflexivity|].
  split; [vm_compute; reflexivity|].
  intros H. vm_compute in H. discriminate H.
Qed.

(** C6. The [encode] of the catalog entry 'md5' returns
    d41d8cd98f00b204e9800998ecf8427e on the empty string. *)
Theorem md5_empty :
  md5Encode [] = lit "d41d8cd98f00b204e9800998ecf8427e" /\
  forall g : Rng,
  exists t enc,
    getTransformation (lit "md5") = Some t /\
    encode t = Some enc /\
    enc [] None g = (Ok (lit "d41d8cd98f00b204e9800998ecf8427e"), g).
Proof.
  split; [vm_compute; reflexivity|].
  intros g. do 2 eexists.
  split; [reflexivity|].
  split; [reflexivity|].
  vm_compute. reflexivity.
Qed.

End Engine.

(* ================================================================== *)
(** * Instances *)
(* ================================================================== *)

(** The first part of C1 at the steps of the worked example: the step with
    the id 'unknown-id' is missing from the catalog, and its result follows
    the result of the Base64 step with the value "aGk=" unchanged. *)
Lemma executePipeline_missing_transformation_witness :
  let s := {| PipelineStep.id := lit "s2";
              PipelineStep.transformationId := lit "unknown-id";
              PipelineStep.mode := Encode;
              PipelineStep.options := None |} in
  let pre := [ {| PipelineStep.id := lit "s1";
                  PipelineStep.transformationId := lit "base64";
                  PipelineStep.mode := Encode;
                  PipelineStep.options := None |} ] in
  getTransformation sampleHost sampleLib (PipelineStep.transformationId s) = None /\
  results (fst (executePipeline sampleHost sampleLib (lit "hi") (pre ++ [s]) sampleRng)) =
    results (fst (executePipeline sampleHost sampleLib (lit "hi") pre sampleRng))
    ++ [failed s (lit "aGk=") (lit "Transformation not found")].
Proof.
  intros s pre.
  assert (H : getTransformation sampleHost sampleLib
                (PipelineStep.transformationId s) = None) by reflexivity.
  split; [exact H|].
  exact (proj1 (proj1 (executePipeline_missing_transformation sampleHost sampleLib)
                      (lit "hi") pre [] s sampleRng H)).
Defined.

(** C7 at a SHA-256 step followed by a Base64 encode step. *)
Lemma analyzePipeline_chain_risk_witness :
  let s1 := {| PipelineStep.id := lit "s1";
               PipelineStep.transformationId := lit "sha256";
               PipelineStep.mode := Encode;
               PipelineStep.options := None |} in
  let s2 := {| PipelineStep.id := lit "s2";
               PipelineStep.transformationId := lit "base64";
               PipelineStep.mode := Encode;
               PipelineStep.options := None |} in
  In (PipelineStep.transformationId s1) hashTransformIds /\
  (exists t, getTransformation sampleHost sampleLib (PipelineStep.transformationId s2)
             = Some t /\
             Transformation.category t = lit "Base Encoding") /\
  In (warning WChainRisk MSG_CHAIN [lit "s1"; lit "s2"])
     (analyzePipeline sampleHost sampleLib [s1; s2]).
Proof.
  intros s1 s2.
  assert (H1 : In (PipelineStep.transformationId s1) hashTransformIds).
  { right. left. reflexivity. }
  assert (H2 : exists t,
             getTransformation sampleHost sampleLib (PipelineStep.transformationId s2)
             = Some t /\
             Transformation.category t = lit "Base Encoding").
  { eexists. split; reflexivity. }
  split; [exact H1|]. split; [exact H2|].
  destruct H2 as (t & Ht & Hcat).
  apply (analyzePipeline_chain_risk sampleHost sampleLib [s1; s2]).
  - exists s1. split; [left; reflexivity | exact H1].
  - exists s2, t. split; [right; left; reflexivity|].
    split; [exact Ht|]. split; [exact Hcat | reflexivity].
Defined.

(** C4 as the specification words it fails: for no host, library and
    random source does the trace of "Wlc1aw==" at [maxDepth = 3] consist of
    two layer entries and a final entry that contains "end". *)
Lemma detectMultiLayer_not_two_layers :
  ~ exists (host : Host) (lib : Library) (g : Rng) (layer1 layer2 final : jsstring),
      fst (detectMultiLayer host lib (lit "Wlc1aw==") 3 g) = [layer1; layer2; final] /\
      includes final (lit "end") = true.
Proof.
  intros (host & lib & g & layer1 & layer2 & final & H & _).
  vm_compute in H. discriminate H.
Qed.
